(** * SMART-on-FHIR demo client: the authentication core

    A shallow embedding of [smart_auth.py] (the [SmartAuth] helper and its
    one-shot loop-back HTTP handler), of the log-in and log-out paths of
    [fhir_textual.py], of the reads of [fhir_client.py] and of the
    log-in and log-out handlers of [textual2_app.py] and
    [textual3_app.py], followed by the properties that hold, or fail, on
    that code.

    Conventions.  A Python [str] is a list of Unicode code points, so that
    slicing counts characters the way Python does and the one-character
    ellipsis U+2026 is one element.  Effects (log records, HTTP responses,
    browser launches, socket binds, token-endpoint calls) are recorded as
    a trace of events; the session attributes of the [SmartAuth] object
    are threaded as explicit state. *)

From Stdlib Require Import List NArith ZArith String Ascii Bool Lia.
From Stdlib Require Import DecimalString.
Import ListNotations.

Set Implicit Arguments.

(* ===================================================================== *)
(** ** Python values *)
(* ===================================================================== *)

Module Py.

(** A character is its code point. *)
Definition char := N.
Definition str := list char.

Local Open Scope N_scope.

Definition replacement : char := 65533.

Definition is_cont (b : N) : bool := (128 <=? b) && (b <=? 191).

Definition low6 (b : N) : N := N.land b 63.

(** Which second bytes may follow the lead byte of a three-byte and of a
    four-byte sequence (no overlong forms, no surrogates, nothing beyond
    U+10FFFF). *)
Definition second_ok3 (b0 b1 : N) : bool :=
  if b0 =? 224 then (160 <=? b1) && (b1 <=? 191)
  else if b0 =? 237 then (128 <=? b1) && (b1 <=? 159)
  else is_cont b1.

Definition second_ok4 (b0 b1 : N) : bool :=
  if b0 =? 240 then (144 <=? b1) && (b1 <=? 191)
  else if b0 =? 244 then (128 <=? b1) && (b1 <=? 143)
  else is_cont b1.

(** [bytes.decode('utf-8', 'replace')]: every ill-formed run (a byte that
    cannot start a sequence, or the valid start of a sequence that is cut
    short) becomes one U+FFFD, and decoding resumes at the byte that broke
    the sequence. *)
Fixpoint utf8_decode (bs : list N) : str :=
  match bs with
  | [] => []
  | b0 :: t0 =>
      if b0 <? 128 then b0 :: utf8_decode t0
      else if (194 <=? b0) && (b0 <=? 223) then
        match t0 with
        | [] => [replacement]
        | b1 :: t1 =>
            if is_cont b1
            then (N.shiftl (N.land b0 31) 6 + low6 b1) :: utf8_decode t1
            else replacement :: utf8_decode t0
        end
      else if (224 <=? b0) && (b0 <=? 239) then
        match t0 with
        | [] => [replacement]
        | b1 :: t1 =>
            if second_ok3 b0 b1 then
              match t1 with
              | [] => [replacement]
              | b2 :: t2 =>
                  if is_cont b2
                  then (N.shiftl (N.land b0 15) 12 + N.shiftl (low6 b1) 6 + low6 b2)
                         :: utf8_decode t2
                  else replacement :: utf8_decode t1
              end
            else replacement :: utf8_decode t0
        end
      else if (240 <=? b0) && (b0 <=? 244) then
        match t0 with
        | [] => [replacement]
        | b1 :: t1 =>
            if second_ok4 b0 b1 then
              match t1 with
              | [] => [replacement]
              | b2 :: t2 =>
                  if is_cont b2 then
                    match t2 with
                    | [] => [replacement]
                    | b3 :: t3 =>
                        if is_cont b3
                        then (N.shiftl (N.land b0 7) 18 + N.shiftl (low6 b1) 12
                              + N.shiftl (low6 b2) 6 + low6 b3) :: utf8_decode t3
                        else replacement :: utf8_decode t2
                    end
                  else replacement :: utf8_decode t1
              end
            else replacement :: utf8_decode t0
        end
      else replacement :: utf8_decode t0
  end.

Local Close Scope N_scope.

(** A string literal of the source: the source files are UTF-8, and so
    are the literals of this file. *)
Definition lit (s : string) : str :=
  utf8_decode (List.map N_of_ascii (list_ascii_of_string s)).

Arguments lit : simpl never.

Fixpoint str_eqb (a b : str) : bool :=
  match a, b with
  | [], [] => true
  | x :: a', y :: b' => N.eqb x y && str_eqb a' b'
  | _, _ => false
  end.

(** [a in b] on strings: [a] occurs in [b] as a contiguous run. *)
Fixpoint starts_with (p s : str) : bool :=
  match p, s with
  | [], _ => true
  | x :: p', y :: s' => N.eqb x y && starts_with p' s'
  | _ :: _, [] => false
  end.

Fixpoint contains (s p : str) : bool :=
  starts_with p s ||
  match s with
  | [] => false
  | _ :: s' => contains s' p
  end.

(** [s[:n]]: a negative bound counts from the end of the string. *)
Definition slice_to (s : str) (n : Z) : str :=
  if (0 <=? n)%Z then firstn (Z.to_nat n) s
  else firstn (List.length s - Z.to_nat (- n)) s.

(** [s.split(sep)] for a one-character separator. *)
Fixpoint split (sep : char) (s : str) : list str :=
  match s with
  | [] => [[]]
  | c :: s' =>
      if N.eqb c sep then [] :: split sep s'
      else match split sep s' with
           | [] => [[c]]
           | w :: ws => (c :: w) :: ws
           end
  end.

(** [s.split(sep, 1)]: the text before the first separator and, when
    there is one, the text after it. *)
Fixpoint split1 (sep : char) (s : str) : str * option str :=
  match s with
  | [] => ([], None)
  | c :: s' =>
      if N.eqb c sep then ([], Some s')
      else let (h, t) := split1 sep s' in (c :: h, t)
  end.

(** [sep.join(parts)]. *)
Fixpoint join (sep : str) (parts : list str) : str :=
  match parts with
  | [] => []
  | [p] => p
  | p :: ps => p ++ sep ++ join sep ps
  end.

(** The values that reach the session attributes: what [json] can
    deliver in a token response (floats apart), and [None]. *)
#[warnings="-register-all"]
Inductive value : Type :=
| VNone
| VBool (b : bool)
| VInt (z : Z)
| VStr (s : str)
| VList (l : list value)
| VDict (d : list (str * value)).

(** Truth value of an object used as a condition. *)
Definition truthy (v : value) : bool :=
  match v with
  | VNone => false
  | VBool b => b
  | VInt z => negb (Z.eqb z 0)
  | VStr s => negb (str_eqb s [])
  | VList l => match l with [] => false | _ => true end
  | VDict d => match d with [] => false | _ => true end
  end.

(** Insertion-ordered dictionaries with string keys. *)
Definition dict := list (str * value).

Fixpoint dict_lookup (d : dict) (k : str) : option value :=
  match d with
  | [] => None
  | (k', v) :: d' => if str_eqb k' k then Some v else dict_lookup d' k
  end.

(** [d.get(k)]: [None] when the key is absent. *)
Definition dict_get (d : dict) (k : str) : value :=
  match dict_lookup d k with
  | Some v => v
  | None => VNone
  end.

(** The exception classes that occur.  [OSError] is what a failed bind
    raises, [HTTPError] what [raise_for_status] raises; [LibraryError]
    stands for whatever else the OAuth, HTTP and parsing libraries
    raise, with its message. *)
Inductive exc : Type :=
| NameError (name : str)
| KeyError (key : str)
| TypeError
| OSError
| HTTPError
| LibraryError (msg : str).

(** [d[k]]. *)
Definition dict_item (d : dict) (k : str) : exc + value :=
  match dict_lookup d k with
  | Some v => inr v
  | None => inl (KeyError k)
  end.

End Py.

(* ===================================================================== *)
(** ** [json.dumps(obj, indent=2)] *)
(* ===================================================================== *)

Module Json.
Import Py.

Definition hex_digit (n : N) : char :=
  if (n <? 10)%N then (48 + n)%N else (87 + n)%N.

(** [format(n, '04x')] for [n < 0x10000]. *)
Definition hex4 (n : N) : str :=
  [ hex_digit (N.land (N.shiftr n 12) 15); hex_digit (N.land (N.shiftr n 8) 15);
    hex_digit (N.land (N.shiftr n 4) 15); hex_digit (N.land n 15) ].

Definition u_escape (n : N) : str := lit "\u" ++ hex4 n.

(** One character of a string under [ensure_ascii]: printable ASCII but
    the quote and the backslash stands for itself; the short escapes;
    [\uXXXX] for the rest, as a surrogate pair beyond the basic plane. *)
Definition escape_char (c : char) : str :=
  if (c =? 92)%N then lit "\\"
  else if (c =? 34)%N then [92; 34]%N
  else if ((32 <=? c) && (c <=? 126))%N then [c]
  else if (c =? 8)%N then lit "\b"
  else if (c =? 12)%N then lit "\f"
  else if (c =? 10)%N then lit "\n"
  else if (c =? 13)%N then lit "\r"
  else if (c =? 9)%N then lit "\t"
  else if (c <? 65536)%N then u_escape c
  else let n := (c - 65536)%N in
       u_escape (N.lor 55296 (N.land (N.shiftr n 10) 1023))
       ++ u_escape (N.lor 56320 (N.land n 1023)).

Definition quote (s : str) : str :=
  [34%N] ++ flat_map escape_char s ++ [34%N].

Definition int_repr (z : Z) : str :=
  lit (NilZero.string_of_int (Z.to_int z)).

(** A new line followed by the indentation of nesting depth [level]. *)
Definition newline_indent (level : nat) : str :=
  10%N :: repeat 32%N (2 * level).

Definition bracket (opening closing : str) (level : nat) (items : list str) : str :=
  match items with
  | [] => opening ++ closing
  | _ => opening ++ newline_indent (S level)
         ++ join (lit "," ++ newline_indent (S level)) items
         ++ newline_indent level ++ closing
  end.

Fixpoint encode (level : nat) (v : value) : str :=
  match v with
  | VNone => lit "null"
  | VBool true => lit "true"
  | VBool false => lit "false"
  | VInt z => int_repr z
  | VStr s => quote s
  | VList l => bracket (lit "[") (lit "]") level (List.map (encode (S level)) l)
  | VDict d =>
      bracket (lit "{") (lit "}") level
        (List.map (fun kv => quote (fst kv) ++ lit ": " ++ encode (S level) (snd kv)) d)
  end.

(** [json.dumps(d, indent=2)] of a dictionary. *)
Definition dumps (d : dict) : str := encode 0 (VDict d).

End Json.

(* ===================================================================== *)
(** ** [urllib.parse]: the query of a request target *)
(* ===================================================================== *)

Module UrlParse.
Import Py.
Local Open Scope N_scope.

(** The value of a hexadecimal digit, in either case. *)
Definition hex_val (c : char) : option N :=
  if (48 <=? c) && (c <=? 57) then Some (c - 48)
  else if (65 <=? c) && (c <=? 70) then Some (c - 55)
  else if (97 <=? c) && (c <=? 102) then Some (c - 87)
  else None.

(** [unquote]: within each run of ASCII characters a [%XX] escape stands
    for one byte (a [%] not followed by two hexadecimal digits stands for
    itself) and the bytes of the run are decoded as UTF-8; characters
    outside ASCII are kept and end the run.  [run] holds the bytes of the
    current run, latest first. *)
Fixpoint unquote_from (run : list N) (s : str) : str :=
  match s with
  | [] => utf8_decode (rev run)
  | c :: s' =>
      if 128 <=? c then utf8_decode (rev run) ++ c :: unquote_from [] s'
      else if c =? 37 then
        match s' with
        | h1 :: h2 :: s'' =>
            match hex_val h1, hex_val h2 with
            | Some a, Some b => unquote_from ((16 * a + b) :: run) s''
            | _, _ => unquote_from (c :: run) s'
            end
        | _ => unquote_from (c :: run) s'
        end
      else unquote_from (c :: run) s'
  end.

Definition unquote (s : str) : str := unquote_from [] s.

(** [s.replace('+', ' ')]. *)
Definition plus_to_space (s : str) : str :=
  List.map (fun c => if c =? 43 then 32 else c) s.

Definition decode_component (s : str) : str := unquote (plus_to_space s).

(** [parse_qsl(qs)] with its defaults: fields are separated by [&]; a
    field without [=] or with a blank value is dropped. *)
Definition parse_field (name_value : str) : list (str * str) :=
  match split1 61 name_value with
  | (name, Some (c :: v)) => [(decode_component name, decode_component (c :: v))]
  | _ => []
  end.

Definition parse_qsl (qs : str) : list (str * str) :=
  flat_map parse_field (split 38 qs).

(** [parse_qs(qs)]: the values of every name, in order of appearance. *)
Fixpoint add_value (name value : str) (parsed : list (str * list str))
  : list (str * list str) :=
  match parsed with
  | [] => [(name, [value])]
  | (n, vs) :: rest =>
      if str_eqb n name then (n, vs ++ [value]) :: rest
      else (n, vs) :: add_value name value rest
  end.

Definition parse_qs (qs : str) : list (str * list str) :=
  fold_left (fun parsed nv => add_value (fst nv) (snd nv) parsed) (parse_qsl qs) [].

Fixpoint lookup (parsed : list (str * list str)) (name : str) : option (list str) :=
  match parsed with
  | [] => None
  | (n, vs) :: rest => if str_eqb n name then Some vs else lookup rest name
  end.

(** [urlparse(target).query] for a request target in origin form (it
    starts with one [/], the form [BaseHTTPRequestHandler] hands to
    [do_GET]): the text after the first [?] of what precedes the first
    [#]. *)
Definition urlparse_query (target : str) : str :=
  match snd (split1 63 (fst (split1 35 target))) with
  | Some q => q
  | None => []
  end.

End UrlParse.

(* ===================================================================== *)
(** ** Effects: a trace of events over threaded object state *)
(* ===================================================================== *)

Module Effects.
Import Py.

Inductive level : Type := INFO | ERROR.

(** An argument of a log call: the logging module keeps the format string
    and its arguments side by side in the record. *)
Inductive log_arg : Type :=
| Obj (v : value)
| Exn (e : exc).

Inductive event : Type :=
| Log (lvl : level) (fmt : str) (args : list log_arg)
| BrowserOpen (url : str)
| Bind (redirect_uri : str)
| Response (status : N) (body : str)
| ErrorResponse (status : N)
| SocketClose
| TokenRequest (url code client_secret : str) (redirect_uri : option str)
| WidgetWrite (message : str)
| FileWrite (text : str)
| FileAppend (text : str).

(** How a call ends: with a value, with an exception, or not at all -
    [Blocked] is a call still waiting inside [handle_request] when the
    requests that ever arrive have all been served. *)
Inductive outcome (A : Type) : Type :=
| Returned (a : A)
| Raised (e : exc)
| Blocked.

Arguments Raised {A} e.
Arguments Blocked {A}.

Record run (S A : Type) : Type :=
  Run { out : outcome A; final : S; trace : list event }.

Definition M (S A : Type) : Type := S -> run S A.

Definition ret {S A} (a : A) : M S A :=
  fun s => Run (Returned a) s [].

Definition bind {S A B} (m : M S A) (k : A -> M S B) : M S B :=
  fun s =>
    match m s with
    | Run (Returned a) s1 t1 =>
        match k a s1 with
        | Run o s2 t2 => Run o s2 (t1 ++ t2)
        end
    | Run (Raised e) s1 t1 => Run (Raised e) s1 t1
    | Run Blocked s1 t1 => Run Blocked s1 t1
    end.

Definition emit {S} (e : event) : M S unit :=
  fun s => Run (Returned tt) s [e].

Definition raise {S A} (e : exc) : M S A :=
  fun s => Run (Raised e) s [].

Definition block {S A} : M S A :=
  fun s => Run Blocked s [].

Definition get {S} : M S S :=
  fun s => Run (Returned s) s [].

Definition put {S} (s' : S) : M S unit :=
  fun _ => Run (Returned tt) s' [].

(** The result of a pure computation that may raise. *)
Definition lift {S A} (r : exc + A) : M S A :=
  match r with
  | inl e => raise e
  | inr a => ret a
  end.

(** [try: body  except Exception as e: handler(e)]. *)
Definition try_except {S A} (body : M S A) (handler : exc -> M S A) : M S A :=
  fun s =>
    match body s with
    | Run (Raised e) s1 t1 =>
        match handler e s1 with
        | Run o s2 t2 => Run o s2 (t1 ++ t2)
        end
    | r => r
    end.

Definition info {S} (fmt : str) (args : list log_arg) : M S unit :=
  emit (Log INFO fmt args).

(** The log records of a trace, in order. *)
Definition log_records (t : list event) : list (level * str * list log_arg) :=
  flat_map (fun e => match e with
                     | Log lvl fmt args => [(lvl, fmt, args)]
                     | _ => []
                     end) t.

(** A log record shows a text when the text occurs in its format string
    or in one of its string arguments. *)
Definition arg_shows (text : str) (a : log_arg) : bool :=
  match a with
  | Obj (VStr t) => contains t text
  | _ => false
  end.

Definition record_shows (text : str) (r : level * str * list log_arg) : bool :=
  contains (snd (fst r)) text || existsb (arg_shows text) (snd r).

End Effects.

Declare Scope py_scope.
Delimit Scope py_scope with py.
Notation "x <- m ;; k" := (Effects.bind m (fun x => k))
  (at level 61, m at next level, right associativity) : py_scope.
Notation "m ;; k" := (Effects.bind m (fun _ => k))
  (at level 61, right associativity) : py_scope.

Local Open Scope py_scope.

(* ===================================================================== *)
(** ** The one-shot loop-back server *)
(* ===================================================================== *)

Module Http.
Import Py Effects.

(** A request as [BaseHTTPRequestHandler] has parsed it: the method and
    the request target. *)
Record request : Type := Request { command : str; path : str }.

Definition GET (target : string) : request := Request (lit "GET") (lit target).

(** [params.get(name, [None])[0]] for
    [params = parse_qs(urlparse(path).query)]. *)
Definition query_param (name path : str) : option str :=
  match UrlParse.lookup (UrlParse.parse_qs (UrlParse.urlparse_query path)) name with
  | Some (v :: _) => Some v
  | _ => None
  end.

Definition query_code (path : str) : option str := query_param (lit "code") path.

(** The handler's [do_GET]: the confirmation page goes out first, then
    the [code] attribute of the server is set from the query - to [None]
    when the query has no [code].  [page] is the body the handler class
    writes. *)
Definition do_GET {S} (page : str) (self_path : str) : M S (option str) :=
  emit (Response 200 page) ;;
  ret (query_code self_path).

(** [srv.handle_request()] on the next request: a [GET] is dispatched to
    [do_GET]; the handler has no method for anything else, which the
    base class answers with 501, leaving the attribute as it was. *)
Definition handle_request {S} (page : str) (r : request) (code : option str)
  : M S (option str) :=
  if str_eqb (command r) (lit "GET") then do_GET page (path r)
  else emit (ErrorResponse 501) ;; ret code.

(** [while getattr(srv, "code", None) is None: srv.handle_request()]
    over the requests that arrive, in order.  The server has no timeout,
    so with no request left the call stays inside [handle_request]. *)
Fixpoint serve {S} (page : str) (reqs : list request) (code : option str)
  : M S str :=
  match code with
  | Some c => ret c
  | None =>
      match reqs with
      | [] => block
      | r :: rest =>
          code' <- handle_request page r code ;;
          serve page rest code'
      end
  end.

(** The code a request puts into the attribute: that of its query when
    it is a [GET], none otherwise. *)
Definition carries_code (r : request) : option str :=
  if str_eqb (command r) (lit "GET") then query_code (path r) else None.

(** What a request is answered with. *)
Definition answer (page : str) (r : request) : event :=
  if str_eqb (command r) (lit "GET") then Response 200 page else ErrorResponse 501.

(** The loop seen from outside: the code that ends it, if any request
    brings one, and the answers given until then. *)
Fixpoint first_code (reqs : list request) : option str :=
  match reqs with
  | [] => None
  | r :: rest =>
      match carries_code r with
      | Some c => Some c
      | None => first_code rest
      end
  end.

Fixpoint answered (page : str) (reqs : list request) : list event :=
  match reqs with
  | [] => []
  | r :: rest =>
      answer page r ::
      match carries_code r with
      | Some _ => []
      | None => answered page rest
      end
  end.

(** [with OneShotTCPServer((host, port), Handler) as srv: <loop>] followed
    by [code = srv.code]: the constructor binds (and raises [OSError] when
    it cannot), leaving the block closes the socket. *)
Definition one_shot {S} (redirect_uri page : str) (bind_succeeds : bool)
    (reqs : list request) : M S str :=
  if bind_succeeds then
    emit (Bind redirect_uri) ;;
    code <- serve page reqs None ;;
    emit SocketClose ;;
    ret code
  else raise OSError.

End Http.

(* ===================================================================== *)
(** ** [smart_auth.py] *)
(* ===================================================================== *)

Module SmartAuth.
Import Py Effects Http.

(** The module constants, read from the environment at import. *)
Record config : Type := Config {
  AUTH_DOMAIN : str;
  CLIENT_ID : str;
  CLIENT_SECRET : str;
  FHIR_BASE : str;
  REDIRECT_URI : str;
  SCOPE : str;
  PATIENT_CLAIM : str
}.

(** The attributes of a [SmartAuth] object. *)
Record Session : Type := Build_Session {
  token : value;
  id_token : value;
  patient_ref : value
}.

(** [SmartAuth.__init__]. *)
Definition __init__ : Session := Build_Session VNone VNone VNone.

(** What [OAuth2Session(...)] is constructed with. *)
Record OAuth2Session : Type := Build_OAuth2Session {
  client_id : str;
  redirect_uri : str;
  scope : str;
  code_challenge_method : str
}.

(** The surroundings of one login attempt: the two calls into the OAuth
    library (the authorization URL together with the state it issues;
    the token exchange, from the session, the endpoint and the keyword
    arguments [code], [client_secret] and [redirect_uri]), whether the
    loop-back port can be bound, and the requests that arrive on it. *)
Record world : Type := World {
  create_authorization_url : OAuth2Session -> str -> list (str * str) -> str * str;
  bind_succeeds : bool;
  incoming : list request;
  fetch_token : OAuth2Session -> str -> str -> str -> option str -> exc + dict
}.


Definition with_incoming (w : world) (reqs : list request) : world :=
  World (create_authorization_url w) (bind_succeeds w) reqs (fetch_token w).

Definition ellipsis : str := lit "…".

(** [_mask(tok, n)]: [tok[:n] + "…" if tok else "<none>"].  A true
    object that is no string cannot be sliced and joined to a string
    (integers and booleans are not subscriptable, a list does not
    concatenate with a string, a dictionary has no slice key). *)
Definition _mask (tok : value) (n : Z) : exc + str :=
  if truthy tok then
    match tok with
    | VStr s => inr (slice_to s n ++ ellipsis)
    | _ => inl TypeError
    end
  else inr (lit "<none>").

Definition confirmation_page : str :=
  lit "<html><body><h2>You may now close this tab.</h2></body></html>".

Definition set_token (v : value) : M Session unit :=
  fun s => Run (Returned tt) (Build_Session v (id_token s) (patient_ref s)) [].

Definition set_id_token (v : value) : M Session unit :=
  fun s => Run (Returned tt) (Build_Session (token s) v (patient_ref s)) [].

Definition set_patient_ref (v : value) : M Session unit :=
  fun s => Run (Returned tt) (Build_Session (token s) (id_token s) v) [].

Section Methods.

Variable cfg : config.

Definition oauth_session : OAuth2Session :=
  Build_OAuth2Session (CLIENT_ID cfg) (REDIRECT_URI cfg) (SCOPE cfg) (lit "S256").

Definition authorize_endpoint : str := lit "https://" ++ AUTH_DOMAIN cfg ++ lit "/authorize".

Definition token_endpoint : str := lit "https://" ++ AUTH_DOMAIN cfg ++ lit "/oauth/token".

(** [oauth.fetch_token(url, code=code, client_secret=..., redirect_uri=...)]. *)
Definition exchange (w : world) (code : str) : M Session dict :=
  emit (TokenRequest token_endpoint code (CLIENT_SECRET cfg) (Some (REDIRECT_URI cfg))) ;;
  lift (fetch_token w oauth_session token_endpoint code (CLIENT_SECRET cfg)
          (Some (REDIRECT_URI cfg))).

(** [SmartAuth.login]. *)
Definition login (w : world) : M Session value :=
  info (lit "Starting SMART on FHIR PKCE flow …") [] ;;
  let oauth := oauth_session in
  let auth_url :=
    fst (create_authorization_url w oauth authorize_endpoint
           [(lit "audience", FHIR_BASE cfg); (lit "prompt", lit "consent")]) in
  emit (BrowserOpen auth_url) ;;
  info (lit "Browser opened → %s") [Obj (VStr auth_url)] ;;
  code <- one_shot (REDIRECT_URI cfg) confirmation_page (bind_succeeds w) (incoming w) ;;
  info (lit "Authorization code received: %s") [Obj (VStr code)] ;;
  try_except
    (token_dict <- exchange w code ;;
     access_token <- lift (dict_item token_dict (lit "access_token")) ;;
     set_token access_token ;;
     set_id_token (dict_get token_dict (lit "id_token")) ;;
     info (lit "Full token response: %s") [Obj (VStr (Json.dumps token_dict))] ;;
     self <- get ;;
     masked <- lift (_mask (token self) 8) ;;
     info (lit "Access token acquired (masked): %s") [Obj (VStr masked)])
    (fun e =>
       info (lit "Failed to exchange code for token.") [] ;;
       raise e) ;;
  self <- get ;;
  ret (token self).

(** [SmartAuth.logout]. *)
Definition logout : M Session unit :=
  set_token VNone ;;
  set_id_token VNone ;;
  set_patient_ref VNone ;;
  info (lit "SmartAuth: local token cleared.") [] ;;
  emit (BrowserOpen
          (lit "https://" ++ AUTH_DOMAIN cfg
           ++ lit "/v2/logout?federated&returnTo=http%3A%2F%2Flocalhost%3A8900%2F&client_id="
           ++ CLIENT_ID cfg)).

End Methods.

(** The binding of the global name [jwt]: its import ([from jose import
    jwt]) is commented out, so the module has none and evaluating the
    name raises [NameError].  A binding, had the module one, would offer
    [get_unverified_claims]. *)
Definition jwt_module : Type := value -> exc + dict.

Definition jwt : option jwt_module := None.

Definition global_jwt (binding : option jwt_module) : M Session jwt_module :=
  match binding with
  | Some m => ret m
  | None => raise (NameError (lit "jwt"))
  end.

(** [SmartAuth._extract_patient], over the binding of [jwt]. *)
Definition _extract_patient_with (binding : option jwt_module) : M Session value :=
  self <- get ;;
  if truthy (token self) then
    try_except
      (get_unverified_claims <- global_jwt binding ;;
       claims <- lift (get_unverified_claims (token self)) ;;
       set_patient_ref (dict_get claims (lit "patient")) ;;
       self <- get ;;
       info (lit "Patient id reference from access token: %s") [Obj (patient_ref self)] ;;
       ret (patient_ref self))
      (fun exc =>
         info (lit "Access parse failed: %s") [Exn exc] ;;
         ret VNone)
  else ret VNone.

Definition _extract_patient : M Session value := _extract_patient_with jwt.

End SmartAuth.

(* ===================================================================== *)
(** ** [fhir_textual.py]: the log-in and log-out paths of the terminal demo *)
(* ===================================================================== *)

Module FhirTextual.
Import Py Effects Http.

Record config : Type := Config {
  AUTH_DOMAIN : str;
  CLIENT_ID : str;
  CLIENT_SECRET : str
}.

Definition FHIR_BASE : str := lit "https://3.17.248.24/csp/healthshare/fhir/fhir/r4".
Definition REDIRECT_URI : str := lit "http://127.0.0.1:8900/cb".
Definition SCOPE : str := lit "user/*.*".

(** The one attribute the application object keeps; it is read through
    [getattr(self, "token", None)], so an attribute not yet set and one
    set to [None] are the same here. *)
Record App : Type := Build_App { token : value }.

Record world : Type := World {
  create_authorization_url :
    SmartAuth.OAuth2Session -> str -> list (str * str) -> str * str;
  bind_succeeds : bool;
  incoming : list request;
  fetch_token :
    SmartAuth.OAuth2Session -> str -> str -> str -> option str -> exc + dict;
  (** [json.dumps(json.loads(base64.urlsafe_b64decode(segment + "==")),
      indent=2)], or the text of the exception it ends with *)
  decode_payload : str -> str + str;
  (** the body of [GET {FHIR_BASE}/Patient/2] under the bearer token,
      pretty-printed, or the exception of the request *)
  get_patient_2 : value -> exc + str
}.

Definition confirmation_page : str := lit "You may now close this tab.".

(** [dual_log]: the message goes to the log widget and, with a new line,
    to the log file.  A message that is no string makes the call fail
    (at the latest where it is joined to the new line). *)
Definition dual_log (message : value) : M App unit :=
  match message with
  | VStr m => emit (WidgetWrite m) ;; emit (FileAppend (m ++ [10%N]))
  | _ => raise TypeError
  end.

Definition say (m : str) : M App unit := dual_log (VStr m).

Section Methods.

Variable cfg : config.

Definition oauth_session : SmartAuth.OAuth2Session :=
  SmartAuth.Build_OAuth2Session (CLIENT_ID cfg) REDIRECT_URI SCOPE (lit "S256").

Definition token_endpoint : str := lit "https://" ++ AUTH_DOMAIN cfg ++ lit "/oauth/token".

(** [SmartFHIRApp.smart_logout]. *)
Definition smart_logout : M App unit :=
  put (Build_App VNone) ;;
  say (lit "[yellow]Local token cleared; you are now logged out.[/yellow]") ;;
  emit (BrowserOpen (lit "https://" ++ AUTH_DOMAIN cfg ++ lit "/v2/logout?"
                     ++ lit "client_id=" ++ CLIENT_ID cfg)).

(** [SmartFHIRApp.fetch_patient]. *)
Definition fetch_patient (w : world) : M App unit :=
  self <- get ;;
  if negb (truthy (token self)) then
    emit (WidgetWrite (lit "[red]You are not logged in.[/red]"))
  else
    emit (WidgetWrite (lit "Fetching Patient/2 …")) ;;
    body <- lift (get_patient_2 w (token self)) ;;
    emit (WidgetWrite body).

(** The report on the token's payload, inside [smart_login]: the token
    is split at its dots and the middle one of exactly three segments is
    decoded and shown. *)
Definition report_payload (w : world) (tok : str) : M App unit :=
  let parts := split 46%N tok in
  if Nat.eqb (List.length parts) 3 then
    match decode_payload w (nth 1 parts []) with
    | inr pretty =>
        say (lit "[green]Decoded token payload:[/green]") ;;
        say pretty
    | inl e => say (lit "[red]Failed to decode token:[/red] " ++ e)
    end
  else say (lit "[red]Access token is not a JWT or is malformed.[/red]").

(** [SmartFHIRApp.smart_login]. *)
Definition smart_login (w : world) : M App unit :=
  emit (FileWrite (lit "SMART on FHIR run log" ++ [10; 10]%N)) ;;
  say (lit "Starting PKCE flow…") ;;
  let oauth := oauth_session in
  let auth_url :=
    fst (create_authorization_url w oauth
           (lit "https://" ++ AUTH_DOMAIN cfg ++ lit "/authorize")
           [(lit "audience", FHIR_BASE); (lit "prompt", lit "consent")]) in
  emit (BrowserOpen auth_url) ;;
  say (lit "Opened browser → " ++ auth_url) ;;
  code <- one_shot REDIRECT_URI confirmation_page (bind_succeeds w) (incoming w) ;;
  say (lit "[green]Received code[/green] " ++ code) ;;
  emit (TokenRequest token_endpoint code (CLIENT_SECRET cfg) None) ;;
  token_dict <- lift (fetch_token w oauth token_endpoint code (CLIENT_SECRET cfg) None) ;;
  access_token <- lift (dict_item token_dict (lit "access_token")) ;;
  put (Build_App access_token) ;;
  say (lit "[green]Access token acquired.[/green]") ;;
  say (lit "[green]Decoded token payload:[/green]") ;;
  say (lit "[blue]Raw bearer token:[/blue]") ;;
  self <- get ;;
  dual_log (token self) ;;
  match token self with
  | VStr tok => report_payload w tok ;; fetch_patient w
  | _ => raise TypeError
  end.

End Methods.

End FhirTextual.

(* ===================================================================== *)
(** ** [fhir_client.py]: the patient search *)
(* ===================================================================== *)

Module FhirClient.
Import Py Effects.

Definition FHIR_BASE : str :=
  lit "https://iris.rpaihtnv03ms.sandbox-eng-paas.isccloud.io/csp/healthshare/fhir/fhir/r4a".

(** [_headers(bearer)]. *)
Definition _headers (bearer : str) : list (str * str) :=
  [ (lit "Authorization", lit "Bearer " ++ bearer);
    (lit "Accept", lit "application/fhir+json");
    (lit "Content-Type", lit "application/fhir+json");
    (lit "Prefer", lit "return=representation") ].

Record http_response : Type := Build_response { status_code : N; text : str }.

(** The network and the resource parser: the answer to a [GET] (or the
    exception of the transport), and the [Patient] resources of a
    response body (or the exception of the parser). *)
Record world : Type := World {
  requests_get : str -> list (str * str) -> exc + http_response;
  patients_of : str -> exc + list value
}.

(** [response.raise_for_status()]. *)
Definition raise_for_status {S} (r : http_response) : M S unit :=
  if ((400 <=? status_code r) && (status_code r <? 600))%N then raise HTTPError
  else ret tt.

(** [search_patients(params, token)].  The request itself stands inside
    the [try]: were it to raise [HTTPError], the handler would find
    [response] unbound. *)
Definition search_patients (w : world) (params token : str) : M unit (list value) :=
  let url := FHIR_BASE ++ lit "/Patient?" ++ params in
  info (lit "FHIR GET %s") [Obj (VStr url)] ;;
  info (lit "OAuth token (masked): %s") [Obj (VStr token)] ;;
  response <-
    match requests_get w url (_headers token) with
    | inl HTTPError => raise (NameError (lit "response"))
    | inl e => raise e
    | inr response =>
        try_except
          (info (lit "FHIR response status: %s")
             [Obj (VInt (Z.of_N (status_code response)))] ;;
           raise_for_status response ;;
           ret response)
          (fun e =>
             match e with
             | HTTPError =>
                 emit (Log ERROR (lit "FHIR request failed (%s): %s")
                         [Obj (VInt (Z.of_N (status_code response)));
                          Obj (VStr (slice_to (text response) 300))]) ;;
                 raise e
             | _ => raise e
             end)
    end ;;
  patients <- lift (patients_of w (text response)) ;;
  info (lit "Found %d Patient resources") [Obj (VInt (Z.of_nat (List.length patients)))] ;;
  ret patients.

End FhirClient.

(* ===================================================================== *)
(** ** A login scenario to run the model on *)
(* ===================================================================== *)

Module Scenario.
Import Py Effects Http.

Definition cfg : SmartAuth.config :=
  SmartAuth.Config (lit "idp.example.com") (lit "client-1") (lit "s3cret")
    (lit "https://fhir.example.com/r4") (lit "http://127.0.0.1:8900/cb")
    (lit "openid profile user/*.*") (lit "https://fhir.example.com/claims/patient").

Definition authorize_url : str :=
  lit "https://idp.example.com/authorize?response_type=code&client_id=client-1".

(** The library issues [state] with the authorization URL, the requests
    [reqs] arrive at the loop-back port, which is free, and the token
    endpoint answers [response]. *)
Definition world (state : str) (reqs : list request) (response : exc + dict)
  : SmartAuth.world :=
  SmartAuth.World (fun _ _ _ => (authorize_url, state)) true reqs
    (fun _ _ _ _ _ => response).

Definition access_token : str := lit "tok_abcdefghijkl".

Definition token_response : dict :=
  [ (lit "access_token", VStr access_token);
    (lit "id_token", VStr (lit "hdr.payload.sig"));
    (lit "token_type", VStr (lit "Bearer"));
    (lit "expires_in", VInt 86400) ].

(** A token response whose access token is a number. *)
Definition numeric_token_response : dict :=
  [ (lit "access_token", VInt 12345); (lit "id_token", VStr (lit "hdr.payload.sig")) ].

(** A session left by an earlier login. *)
Definition earlier_session : SmartAuth.Session :=
  SmartAuth.Build_Session (VStr (lit "tok_previous")) (VStr (lit "h.p.s")) VNone.

End Scenario.

(* ===================================================================== *)
(** ** [fhir_client.py]: one patient, and a patient's observations *)
(* ===================================================================== *)

Module FhirReads.
Import Py Effects.

(** [get_patient(patient_id, token)]; [parse_patient] is
    [Patient.parse_obj(r.json())] as a function of the response body. *)
Definition get_patient (w : FhirClient.world) (parse_patient : str -> exc + value)
    (patient_id token : str) : M unit value :=
  let url := FhirClient.FHIR_BASE ++ lit "/Patient/" ++ patient_id in
  r <- lift (FhirClient.requests_get w url (FhirClient._headers token)) ;;
  FhirClient.raise_for_status r ;;
  lift (parse_patient (FhirClient.text r)).

(** [observations_for_patient(patient_id, token)]; [parse_observations]
    is the body of the [try] after the request: [r.json()], the FHIRPath
    selection and [Observation.parse_obj].  The handler formats its
    record from [r]: when it is the request that raised, [r] is unbound
    and the handler itself ends with [UnboundLocalError], a [NameError].
    The status of the response is not looked at. *)
Definition observations_for_patient (w : FhirClient.world)
    (parse_observations : str -> exc + list value) (patient_id token : str)
  : M unit (list value) :=
  let url := FhirClient.FHIR_BASE ++ lit "/Observation?subject=Patient/" ++ patient_id in
  info (lit "FHIR GET %s") [Obj (VStr url)] ;;
  info (lit "OAuth token (masked): %s") [Obj (VStr token)] ;;
  match FhirClient.requests_get w url (FhirClient._headers token) with
  | inl _ => raise (NameError (lit "r"))
  | inr r =>
      try_except
        (lift (parse_observations (FhirClient.text r)))
        (fun e =>
           info (lit "FHIR request failed (%s): %s")
             [Obj (VInt (Z.of_N (FhirClient.status_code r)));
              Obj (VStr (slice_to (FhirClient.text r) 300))] ;;
           raise e)
  end.

End FhirReads.

(* ===================================================================== *)
(** ** [textual3_app.py]: the log-in of the patient portal *)
(* ===================================================================== *)

Module Portal.
Import Py Effects.

(** The attributes of a [PatientPortal] the handler works on: the
    [SmartAuth] helper, if one was made, and the patient id. *)
Record App : Type := Build_App {
  auth : option SmartAuth.Session;
  patient_id : value
}.

(** [PatientPortal.__init__]. *)
Definition __init__ : App := Build_App None VNone.

(** [self.auth and self.auth.token]. *)
Definition logged_in (self : App) : bool :=
  match auth self with
  | Some s => truthy (SmartAuth.token s)
  | None => false
  end.

(** [PatientPortal._handle_login].  [show_patient] stands for the rest
    of the method once a patient context was found: the update of the
    widgets, [fhir.get_patient], [_show_demographics],
    [_load_observations] and the switch of the tab. *)
Definition _handle_login (cfg : SmartAuth.config) (w : SmartAuth.world)
    (show_patient : M App unit) : M App unit :=
  fun self =>
    if logged_in self then
      Run (Returned tt) self [Log INFO (lit "Already logged in.") []]
    else
      match SmartAuth.login cfg w SmartAuth.__init__ with
      | Run (Raised exc) s1 t1 =>
          Run (Returned tt) (Build_App (Some s1) (patient_id self))
              (t1 ++ [Log ERROR (lit "Login failed: %s") [Exn exc]])
      | Run Blocked s1 t1 =>
          Run Blocked (Build_App (Some s1) (patient_id self)) t1
      | Run (Returned _) s1 t1 =>
          match SmartAuth._extract_patient s1 with
          | Run (Returned p) s2 t2 =>
              let s3 := SmartAuth.Build_Session (SmartAuth.token s2)
                          (SmartAuth.id_token s2) p in
              if negb (truthy p) then
                Run (Returned tt) (Build_App (Some s3) (patient_id self))
                    (t1 ++ t2
                     ++ [Log INFO (lit "No patient context in token/userinfo.") []])
              else
                match show_patient (Build_App (Some s3) p) with
                | Run o a t3 => Run o a (t1 ++ t2 ++ t3)
                end
          | Run (Raised e) s2 t2 =>
              Run (Raised e) (Build_App (Some s2) (patient_id self)) (t1 ++ t2)
          | Run Blocked s2 t2 =>
              Run Blocked (Build_App (Some s2) (patient_id self)) (t1 ++ t2)
          end
      end.

End Portal.

(* ===================================================================== *)
(** ** [textual2_app.py]: the log-in and log-out buttons *)
(* ===================================================================== *)

Module Demo2.
Import Py Effects.

(** The attribute of a [SmartFHIRDemoV2] the buttons work on: the
    [SmartAuth] helper, [None] until a log-in and after a log-out. *)
Record App : Type := Build_App { auth : option SmartAuth.Session }.

Section Handlers.

Variable cfg : SmartAuth.config.

(** [status.update], the one call into the status widget. *)
Variable status_update : str -> M App unit.

(** [_update_status(text, colour)]. *)
Definition _update_status (text colour : str) : M App unit :=
  status_update (lit "[" ++ colour ++ lit "]" ++ text ++ lit "[/" ++ colour ++ lit "]").

(** [_require_auth]. *)
Definition _require_auth : M App bool :=
  self <- get ;;
  match auth self with
  | None =>
      emit (Log ERROR (lit "Please login first.") []) ;; ret false
  | Some s =>
      match SmartAuth.token s with
      | VNone => emit (Log ERROR (lit "Please login first.") []) ;; ret false
      | _ => ret true
      end
  end.

(** [self.auth = SmartAuth(); self.auth.login()]: the helper is made
    anew and kept, however its login ends. *)
Definition fresh_login (w : SmartAuth.world) : M App value :=
  fun _ =>
    match SmartAuth.login cfg w SmartAuth.__init__ with
    | Run o s1 t1 => Run o (Build_App (Some s1)) t1
    end.

(** [on_button_pressed], the branch of the log-in button. *)
Definition press_login (w : SmartAuth.world) : M App unit :=
  try_except
    (fresh_login w ;;
     _update_status (lit "Logged In") (lit "green") ;;
     info (lit "Login successful") [])
    (fun exc =>
       _update_status (lit "Login Failed") (lit "red") ;;
       emit (Log ERROR (lit "Login failed: %s") [Exn exc])).

(** [self.auth.logout()] on the helper the application holds. *)
Definition helper_logout (s : SmartAuth.Session) : M App unit :=
  fun _ =>
    match SmartAuth.logout cfg s with
    | Run o s1 t1 => Run o (Build_App (Some s1)) t1
    end.

(** [on_button_pressed], the branch of the log-out button. *)
Definition press_logout : M App unit :=
  self <- get ;;
  match auth self with
  | Some s =>
      try_except (helper_logout s) (fun _ => ret tt) ;;
      put (Build_App None)
  | None => ret tt
  end ;;
  _update_status (lit "Logged Out") (lit "yellow") ;;
  info (lit "Logged out") [].

End Handlers.

(** A status widget that takes every update. *)
Definition status_shown (markup : str) : M App unit := emit (WidgetWrite markup).

End Demo2.

(* ===================================================================== *)
(** ** Measures on traces and strings, to state properties with *)
(* ===================================================================== *)

Module Measures.
Import Py Effects.

(** The codes of the calls to the token endpoint, in order. *)
Definition token_requests (t : list event) : list str :=
  flat_map (fun e => match e with
                     | TokenRequest _ code _ _ => [code]
                     | _ => []
                     end) t.


(** A character [json.dumps] writes as it is inside a string. *)
Definition json_plain (c : char) : bool :=
  ((32 <=? c) && (c <=? 126) && negb (c =? 34) && negb (c =? 92))%N.

(** Every value a parsed query keeps is a non-empty string. *)
Definition values_nonempty (parsed : list (str * list str)) : Prop :=
  forall n vs v, In (n, vs) parsed -> In v vs -> v <> [].

End Measures.

(* ===================================================================== *)
(** * Properties *)
(* ===================================================================== *)

Import Py Effects Http.

(** ** The masking helper *)

Lemma str_eqb_nil_r (s : str) : str_eqb s [] = true <-> s = [].
Proof.
  destruct s; simpl; split; intro H; try reflexivity; discriminate.
Qed.

Lemma truthy_str (s : str) : s <> [] -> truthy (VStr s) = true.
Proof.
  intro H. simpl. destruct (str_eqb s []) eqn:E; [|reflexivity].
  apply str_eqb_nil_r in E. contradiction.
Qed.

(** C10.  For a non-empty token and a mask length [n >= 0], [_mask] is
    the first [n] characters of the token (all of it when it is shorter)
    followed by the one-character indicator "…"; for the empty string
    and for [None] it is the literal "<none>". *)
Theorem mask_prefix_then_indicator (tok : str) (n : Z) :
  tok <> [] -> (0 <= n)%Z ->
  SmartAuth._mask (VStr tok) n = inr (firstn (Z.to_nat n) tok ++ lit "…")
  /\ SmartAuth._mask (VStr []) n = inr (lit "<none>")
  /\ SmartAuth._mask VNone n = inr (lit "<none>").
Proof.
  intros Htok Hn. repeat split.
  unfold SmartAuth._mask. rewrite (truthy_str Htok).
  unfold slice_to. destruct (Z.leb_spec 0 n); [reflexivity | lia].
Qed.

Lemma mask_prefix_then_indicator_witness :
  lit "tok_abcdefghijkl" <> [] /\ (0 <= 8)%Z
  /\ SmartAuth._mask (VStr (lit "tok_abcdefghijkl")) 8 = inr (lit "tok_abcd…").
Proof.
  split; [vm_compute; discriminate |]. split; [lia |].
  apply (mask_prefix_then_indicator (tok := lit "tok_abcdefghijkl") (n := 8));
    [vm_compute; discriminate | lia].
Defined.

(** A token shorter than the mask length is shown whole, then the
    indicator. *)
Example mask_short_token :
  SmartAuth._mask (VStr (lit "abc")) 8 = inr (lit "abc…").
Proof. reflexivity. Qed.

(** A negative bound is Python's slice from the end: all but the last
    [-n] characters. *)
Lemma mask_negative_bound (tok : str) (n : Z) :
  tok <> [] -> (n < 0)%Z ->
  SmartAuth._mask (VStr tok) n
  = inr (firstn (List.length tok - Z.to_nat (- n)) tok ++ lit "…").
Proof.
  intros Htok Hn. unfold SmartAuth._mask. rewrite (truthy_str Htok).
  unfold slice_to. destruct (Z.leb_spec 0 n); [lia | reflexivity].
Qed.

(** ** Log-out *)

(** C9.  [logout] leaves the session as [__init__] made it: the access
    token, the ID token and the patient reference are all [None]; the
    log-out of the terminal demo clears the one token its application
    object keeps. *)
Theorem logout_clears_session (cfg : SmartAuth.config) (s : SmartAuth.Session)
    (tcfg : FhirTextual.config) (a : FhirTextual.App) :
  final (SmartAuth.logout cfg s) = SmartAuth.__init__
  /\ SmartAuth.token (final (SmartAuth.logout cfg s)) = VNone
  /\ SmartAuth.id_token (final (SmartAuth.logout cfg s)) = VNone
  /\ SmartAuth.patient_ref (final (SmartAuth.logout cfg s)) = VNone
  /\ out (SmartAuth.logout cfg s) = Returned tt
  /\ FhirTextual.token (final (FhirTextual.smart_logout tcfg a)) = VNone.
Proof.
  repeat split.
Qed.

(** ** The patient context extractor *)

(** Whatever [jwt] is bound to and whatever the session holds, the
    extractor returns: every exception of its body is caught. *)
Lemma extract_patient_returns (binding : option SmartAuth.jwt_module)
    (s : SmartAuth.Session) :
  exists v, out (SmartAuth._extract_patient_with binding s) = Returned v.
Proof.
  unfold SmartAuth._extract_patient_with, bind, get. simpl.
  destruct (truthy (SmartAuth.token s)); [| eexists; reflexivity].
  unfold try_except, bind. destruct binding as [f |]; simpl.
  - destruct (f (SmartAuth.token s)); simpl; eexists; reflexivity.
  - eexists; reflexivity.
Qed.

(** With the module as it is, the name [jwt] is unbound: a session with
    a token never gets a patient reference out of the extractor. *)
Lemma extract_patient_none (s : SmartAuth.Session) :
  out (SmartAuth._extract_patient s) = Returned VNone
  /\ final (SmartAuth._extract_patient s) = s.
Proof.
  unfold SmartAuth._extract_patient, SmartAuth._extract_patient_with, bind, get.
  simpl. destruct (truthy (SmartAuth.token s)); split; reflexivity.
Qed.

(** C7.  For a token that is not exactly three dot-separated segments the
    extractor returns [None] - it does not raise, and it leaves the
    session alone; the terminal demo reports such a token as malformed
    and decodes nothing. *)
Theorem extract_malformed_token_is_none (s : SmartAuth.Session) (tok : str)
    (w : FhirTextual.world) (a : FhirTextual.App) :
  SmartAuth.token s = VStr tok ->
  List.length (split 46%N tok) <> 3 ->
  out (SmartAuth._extract_patient s) = Returned VNone
  /\ final (SmartAuth._extract_patient s) = s
  /\ FhirTextual.report_payload w tok a
     = Run (Returned tt) a
         [ WidgetWrite (lit "[red]Access token is not a JWT or is malformed.[/red]");
           FileAppend (lit "[red]Access token is not a JWT or is malformed.[/red]"
                       ++ [10%N]) ].
Proof.
  intros _ Hseg. destruct (extract_patient_none s) as [Ho Hf].
  repeat split; try assumption.
  unfold FhirTextual.report_payload.
  destruct (Nat.eqb_spec (List.length (split 46%N tok)) 3); [contradiction |].
  reflexivity.
Qed.

Lemma extract_malformed_token_is_none_witness :
  out (SmartAuth._extract_patient
         (SmartAuth.Build_Session (VStr (lit "only.two")) VNone VNone))
  = Returned VNone.
Proof.
  apply (@extract_malformed_token_is_none
           (SmartAuth.Build_Session (VStr (lit "only.two")) VNone VNone)
           (lit "only.two")
           (FhirTextual.World (fun _ _ _ => ([], [])) true []
              (fun _ _ _ _ _ => inr []) (fun _ => inl []) (fun _ => inr []))
           (FhirTextual.Build_App VNone)).
  - reflexivity.
  - vm_compute. discriminate.
Defined.

(** ** The wait for the redirect, and [login] in closed form *)

Lemma handle_request_run {S} (page : str) (r : request) (s : S) :
  handle_request page r None s = Run (Returned (carries_code r)) s [answer page r].
Proof.
  unfold handle_request, carries_code, answer.
  destruct (str_eqb (command r) (lit "GET")); reflexivity.
Qed.

Lemma serve_done {S} (page : str) (reqs : list request) (c : str) (s : S) :
  serve page reqs (Some c) s = Run (Returned c) s [].
Proof. destruct reqs; reflexivity. Qed.

Lemma serve_run {S} (page : str) (reqs : list request) (s : S) :
  serve page reqs None s
  = Run (match first_code reqs with Some c => Returned c | None => Blocked end)
        s (answered page reqs).
Proof.
  induction reqs as [| r rest IH]; [reflexivity |].
  simpl. unfold bind. rewrite handle_request_run. simpl.
  destruct (carries_code r) as [c |].
  - rewrite serve_done. reflexivity.
  - rewrite IH. reflexivity.
Qed.

(** Membership in a list that is spelt out. *)
Ltac find_in := repeat (first [left; reflexivity | right]).

(** An event emitted is the first of the trace. *)
Lemma bind_emit_trace {S B} (e : event) (k : unit -> M S B) (s : S) :
  trace (bind (emit e) k s) = e :: trace (k tt s).
Proof.
  unfold bind, emit. destruct (k tt s). reflexivity.
Qed.

(** Two runs are the same when their traces are the same lists, however
    the appends are nested. *)
Ltac same_run :=
  cbn [app]; f_equal; repeat rewrite <- app_assoc; cbn [app];
  rewrite ?app_nil_r; reflexivity.

Section LoginRun.

Variable cfg : SmartAuth.config.
Variable w : SmartAuth.world.
Variable s : SmartAuth.Session.

Let auth_url : str :=
  fst (SmartAuth.create_authorization_url w (SmartAuth.oauth_session cfg)
         (SmartAuth.authorize_endpoint cfg)
         [(lit "audience", SmartAuth.FHIR_BASE cfg); (lit "prompt", lit "consent")]).

Let opening : list event :=
  [ Log INFO (lit "Starting SMART on FHIR PKCE flow …") [];
    BrowserOpen auth_url;
    Log INFO (lit "Browser opened → %s") [Obj (VStr auth_url)] ].

Let listening : list event :=
  opening ++ Bind (SmartAuth.REDIRECT_URI cfg)
          :: answered SmartAuth.confirmation_page (SmartAuth.incoming w).

Let exchanging (code : str) : list event :=
  listening ++
  [ SocketClose;
    Log INFO (lit "Authorization code received: %s") [Obj (VStr code)];
    TokenRequest (SmartAuth.token_endpoint cfg) code (SmartAuth.CLIENT_SECRET cfg)
      (Some (SmartAuth.REDIRECT_URI cfg)) ].

Let failed : event := Log INFO (lit "Failed to exchange code for token.") [].

Let full (d : dict) : event :=
  Log INFO (lit "Full token response: %s") [Obj (VStr (Json.dumps d))].

(** Every way a login attempt can go. *)
Lemma login_run :
  SmartAuth.login cfg w s =
  if SmartAuth.bind_succeeds w then
    match first_code (SmartAuth.incoming w) with
    | None => Run Blocked s listening
    | Some code =>
        match SmartAuth.fetch_token w (SmartAuth.oauth_session cfg)
                (SmartAuth.token_endpoint cfg) code (SmartAuth.CLIENT_SECRET cfg)
                (Some (SmartAuth.REDIRECT_URI cfg)) with
        | inl e => Run (Raised e) s (exchanging code ++ [failed])
        | inr d =>
            match dict_lookup d (lit "access_token") with
            | None =>
                Run (Raised (KeyError (lit "access_token"))) s
                    (exchanging code ++ [failed])
            | Some v =>
                let s' := SmartAuth.Build_Session v (dict_get d (lit "id_token"))
                            (SmartAuth.patient_ref s) in
                match SmartAuth._mask v 8 with
                | inl e => Run (Raised e) s' (exchanging code ++ [full d; failed])
                | inr m =>
                    Run (Returned v) s'
                        (exchanging code ++
                         [ full d;
                           Log INFO (lit "Access token acquired (masked): %s")
                             [Obj (VStr m)] ])
                end
            end
        end
    end
  else Run (Raised OSError) s opening.
Proof.
  unfold SmartAuth.login, one_shot, SmartAuth.exchange.
  unfold exchanging, listening, opening, auth_url, failed, full.
  destruct (SmartAuth.bind_succeeds w); [| reflexivity].
  cbv beta iota delta [bind try_except info emit ret raise get lift
                       SmartAuth.set_token SmartAuth.set_id_token].
  rewrite serve_run.
  destruct (first_code (SmartAuth.incoming w)) as [code |]; [| reflexivity].
  destruct (SmartAuth.fetch_token w (SmartAuth.oauth_session cfg)
              (SmartAuth.token_endpoint cfg) code (SmartAuth.CLIENT_SECRET cfg)
              (Some (SmartAuth.REDIRECT_URI cfg))) as [e | d].
  - same_run.
  - unfold dict_item.
    destruct (dict_lookup d (lit "access_token")) as [v |]; [| same_run].
    cbn [SmartAuth.token].
    destruct (SmartAuth._mask v 8) as [e | m]; same_run.
Qed.

End LoginRun.

(** ** Facts about the wait *)

Lemma first_code_none (reqs : list request) :
  first_code reqs = None <-> (forall r, In r reqs -> carries_code r = None).
Proof.
  induction reqs as [| r rest IH]; simpl.
  - split; [intros _ r [] | reflexivity].
  - destruct (carries_code r) as [c |] eqn:E.
    + split; [discriminate |]. intro H.
      rewrite <- E. apply H. left. reflexivity.
    + rewrite IH. split.
      * intros H r' [<- | Hin]; [assumption | apply H, Hin].
      * intros H r' Hin. apply H. right. assumption.
Qed.


(** The loop only answers requests. *)
Lemma answered_only_answers (page : str) (reqs : list request) (e : event) :
  In e (answered page reqs) ->
  e = Response 200 page \/ e = ErrorResponse 501.
Proof.
  induction reqs as [| r rest IH]; simpl; [intros [] |].
  intros [<- | Hin].
  - unfold answer. destruct (str_eqb (command r) (lit "GET")); auto.
  - destruct (carries_code r); [destruct Hin | auto].
Qed.

Lemma log_records_app (t u : list event) :
  log_records (t ++ u) = log_records t ++ log_records u.
Proof. unfold log_records. apply flat_map_app. Qed.

Lemma log_records_answered (page : str) (reqs : list request) :
  log_records (answered page reqs) = [].
Proof.
  induction reqs as [| r rest IH]; [reflexivity |].
  simpl. unfold answer at 1.
  destruct (str_eqb (command r) (lit "GET")); simpl;
    (destruct (carries_code r); [reflexivity | exact IH]).
Qed.

(** ** The redirect's state *)





(** ** Waiting without a time limit *)

(** C3, as the code contradicts it.  The port is bound and no request
    ever arrives: the login attempt does not return - there is no
    [Timeout] result to return - and the socket is never closed. *)
Lemma no_request_login_stays_blocked :
  let w := Scenario.world (lit "XYZ") [] (inr Scenario.token_response) in
  let r := SmartAuth.login Scenario.cfg w SmartAuth.__init__ in
  out r = Blocked
  /\ In (Bind (SmartAuth.REDIRECT_URI Scenario.cfg)) (trace r)
  /\ ~ In SocketClose (trace r).
Proof.
  vm_compute. repeat split.
  - do 3 right. left. reflexivity.
  - intros [H | [H | [H | [H | []]]]]; discriminate H.
Qed.

(** C3, amended.  When no request that arrives brings a code, the wait
    has no end: the server is given no timeout, the login attempt stays
    inside [handle_request] with the port bound, and the socket is not
    closed. *)
Theorem login_waits_without_timeout (cfg : SmartAuth.config)
    (w : SmartAuth.world) (s : SmartAuth.Session) :
  SmartAuth.bind_succeeds w = true ->
  (forall r, In r (SmartAuth.incoming w) -> carries_code r = None) ->
  out (SmartAuth.login cfg w s) = Blocked
  /\ final (SmartAuth.login cfg w s) = s
  /\ In (Bind (SmartAuth.REDIRECT_URI cfg)) (trace (SmartAuth.login cfg w s))
  /\ ~ In SocketClose (trace (SmartAuth.login cfg w s)).
Proof.
  intros Hbind Hnone. apply first_code_none in Hnone.
  rewrite login_run, Hbind, Hnone. cbv zeta. cbn [out final trace].
  repeat split.
  - apply in_or_app. right. left. reflexivity.
  - intro Hin. apply in_app_or in Hin. destruct Hin as [Hin | [Hin | Hin]].
    + destruct Hin as [H | [H | [H | []]]]; discriminate H.
    + discriminate Hin.
    + apply answered_only_answers in Hin. destruct Hin; discriminate.
Qed.

Lemma login_waits_without_timeout_witness :
  let w := Scenario.world (lit "XYZ")
             [Request (lit "GET") (lit "/favicon.ico");
              Request (lit "POST") (lit "/cb?code=ABC123")]
             (inr Scenario.token_response) in
  out (SmartAuth.login Scenario.cfg w SmartAuth.__init__) = Blocked
  /\ final (SmartAuth.login Scenario.cfg w SmartAuth.__init__) = SmartAuth.__init__
  /\ In (Bind (SmartAuth.REDIRECT_URI Scenario.cfg))
        (trace (SmartAuth.login Scenario.cfg w SmartAuth.__init__))
  /\ ~ In SocketClose (trace (SmartAuth.login Scenario.cfg w SmartAuth.__init__)).
Proof.
  intro w.
  apply (@login_waits_without_timeout Scenario.cfg w SmartAuth.__init__).
  - reflexivity.
  - intros r [<- | [<- | []]]; vm_compute; reflexivity.
Defined.


(** ** Failed attempts and the session *)

(** C4, as the code contradicts it.  The token endpoint answers with an
    access token that is a number: the attempt fails ([_mask] cannot
    slice it) after the session attributes were overwritten. *)
Lemma failed_login_overwrites_session :
  let w := Scenario.world (lit "XYZ") [Request (lit "GET") (lit "/cb?code=ABC123&state=XYZ")]
             (inr Scenario.numeric_token_response) in
  let r := SmartAuth.login Scenario.cfg w Scenario.earlier_session in
  out r = Raised TypeError
  /\ final r <> Scenario.earlier_session
  /\ SmartAuth.token (final r) = VInt 12345.
Proof.
  vm_compute. repeat split. discriminate.
Qed.

(** C4, amended.  A login attempt that fails leaves the session as it
    was, except when the token response carries an access token that is
    true and not a string: the attempt then fails with the token and the
    ID token already taken from the response. *)
Theorem failed_login_session (cfg : SmartAuth.config) (w : SmartAuth.world)
    (s : SmartAuth.Session) (e : exc) :
  out (SmartAuth.login cfg w s) = Raised e ->
  final (SmartAuth.login cfg w s) = s
  \/ exists code d v,
       SmartAuth.fetch_token w (SmartAuth.oauth_session cfg)
         (SmartAuth.token_endpoint cfg) code (SmartAuth.CLIENT_SECRET cfg)
         (Some (SmartAuth.REDIRECT_URI cfg)) = inr d
       /\ dict_lookup d (lit "access_token") = Some v
       /\ truthy v = true
       /\ (forall t, v <> VStr t)
       /\ final (SmartAuth.login cfg w s)
          = SmartAuth.Build_Session v (dict_get d (lit "id_token"))
              (SmartAuth.patient_ref s).
Proof.
  rewrite login_run. cbv zeta.
  destruct (SmartAuth.bind_succeeds w); [| left; reflexivity].
  destruct (first_code (SmartAuth.incoming w)) as [code |]; [| discriminate].
  destruct (SmartAuth.fetch_token _ _ _ _ _ _) as [e' | d] eqn:Hfetch;
    [left; reflexivity |].
  destruct (dict_lookup d (lit "access_token")) as [v |] eqn:Hv;
    [| left; reflexivity].
  destruct (SmartAuth._mask v 8) as [e' | m] eqn:Hmask; [| discriminate].
  intros _. right. exists code, d, v.
  unfold SmartAuth._mask in Hmask.
  destruct (truthy v) eqn:Htrue; [| discriminate].
  repeat split; try assumption.
  intros t ->. discriminate.
Qed.

Lemma failed_login_session_witness :
  let w := Scenario.world (lit "XYZ") [Request (lit "GET") (lit "/cb?code=ABC123&state=XYZ")]
             (inl (LibraryError (lit "invalid_grant"))) in
  out (SmartAuth.login Scenario.cfg w Scenario.earlier_session)
    = Raised (LibraryError (lit "invalid_grant"))
  /\ final (SmartAuth.login Scenario.cfg w Scenario.earlier_session)
     = Scenario.earlier_session.
Proof.
  intro w. split; [reflexivity |].
  destruct (@failed_login_session Scenario.cfg w Scenario.earlier_session
              (LibraryError (lit "invalid_grant")) eq_refl)
    as [H | [code [d [v [Hf _]]]]].
  - exact H.
  - discriminate Hf.
Defined.

(** ** What the log shows of a token *)

(** C2, as the code contradicts it.  After a successful login the log
    holds, at level INFO, a record that shows the whole access token: the
    token response, serialised in full. *)
Lemma login_logs_full_token_response :
  let w := Scenario.world (lit "XYZ") [Request (lit "GET") (lit "/cb?code=ABC123&state=XYZ")]
             (inr Scenario.token_response) in
  let r := SmartAuth.login Scenario.cfg w SmartAuth.__init__ in
  out r = Returned (VStr Scenario.access_token)
  /\ In (INFO, lit "Full token response: %s",
         [Obj (VStr (Json.dumps Scenario.token_response))])
        (log_records (trace r))
  /\ record_shows Scenario.access_token
       (INFO, lit "Full token response: %s",
        [Obj (VStr (Json.dumps Scenario.token_response))]) = true.
Proof.
  vm_compute. repeat split.
  do 3 right. left. reflexivity.
Qed.

(** C2, amended.  A login that returns has written five log records, all
    at level INFO.  Two of them depend on the token: one shows the access
    token masked by [_mask] with its default length of 8, and one shows
    the whole token response as [json.dumps] serialises it. *)
Theorem login_log_records (cfg : SmartAuth.config) (w : SmartAuth.world)
    (s : SmartAuth.Session) (v : value) :
  out (SmartAuth.login cfg w s) = Returned v ->
  exists auth_url code d masked,
    SmartAuth.fetch_token w (SmartAuth.oauth_session cfg)
      (SmartAuth.token_endpoint cfg) code (SmartAuth.CLIENT_SECRET cfg)
      (Some (SmartAuth.REDIRECT_URI cfg)) = inr d
    /\ dict_lookup d (lit "access_token") = Some v
    /\ SmartAuth._mask v 8 = inr masked
    /\ log_records (trace (SmartAuth.login cfg w s))
       = [ (INFO, lit "Starting SMART on FHIR PKCE flow …", []);
           (INFO, lit "Browser opened → %s", [Obj (VStr auth_url)]);
           (INFO, lit "Authorization code received: %s", [Obj (VStr code)]);
           (INFO, lit "Full token response: %s", [Obj (VStr (Json.dumps d))]);
           (INFO, lit "Access token acquired (masked): %s", [Obj (VStr masked)]) ].
Proof.
  rewrite login_run. cbv zeta.
  destruct (SmartAuth.bind_succeeds w); [| discriminate].
  destruct (first_code (SmartAuth.incoming w)) as [code |]; [| discriminate].
  destruct (SmartAuth.fetch_token _ _ _ _ _ _) as [e' | d] eqn:Hfetch;
    [discriminate |].
  destruct (dict_lookup d (lit "access_token")) as [v' |] eqn:Hv;
    [| discriminate].
  destruct (SmartAuth._mask v' 8) as [e' | m] eqn:Hmask; [discriminate |].
  cbn [out trace]. intros [= <-].
  eexists _, code, d, m. repeat split; try eassumption.
  rewrite !log_records_app. cbn [log_records flat_map app].
  change (flat_map _ (answered SmartAuth.confirmation_page (SmartAuth.incoming w)))
    with (log_records (answered SmartAuth.confirmation_page (SmartAuth.incoming w))).
  rewrite log_records_answered. reflexivity.
Qed.

Lemma login_log_records_witness :
  let w := Scenario.world (lit "XYZ") [Request (lit "GET") (lit "/cb?code=ABC123&state=XYZ")]
             (inr Scenario.token_response) in
  exists auth_url code d masked,
    SmartAuth.fetch_token w (SmartAuth.oauth_session Scenario.cfg)
      (SmartAuth.token_endpoint Scenario.cfg) code
      (SmartAuth.CLIENT_SECRET Scenario.cfg)
      (Some (SmartAuth.REDIRECT_URI Scenario.cfg)) = inr d
    /\ dict_lookup d (lit "access_token") = Some (VStr Scenario.access_token)
    /\ SmartAuth._mask (VStr Scenario.access_token) 8 = inr masked
    /\ log_records (trace (SmartAuth.login Scenario.cfg w SmartAuth.__init__))
       = [ (INFO, lit "Starting SMART on FHIR PKCE flow …", []);
           (INFO, lit "Browser opened → %s", [Obj (VStr auth_url)]);
           (INFO, lit "Authorization code received: %s", [Obj (VStr code)]);
           (INFO, lit "Full token response: %s", [Obj (VStr (Json.dumps d))]);
           (INFO, lit "Access token acquired (masked): %s", [Obj (VStr masked)]) ].
Proof.
  intro w.
  apply (@login_log_records Scenario.cfg w SmartAuth.__init__
           (VStr Scenario.access_token)).
  reflexivity.
Defined.

(** The masked record of a login whose token is a non-empty string is
    the first 8 characters of the token and the indicator. *)
Lemma login_masked_record (tok : str) :
  tok <> [] -> SmartAuth._mask (VStr tok) 8 = inr (firstn 8 tok ++ lit "…").
Proof.
  intro H. unfold SmartAuth._mask. rewrite (truthy_str H). reflexivity.
Qed.

(** The patient search labels the token as masked and logs it whole. *)
Lemma search_patients_logs_raw_token (w : FhirClient.world) (params token : str) :
  In (INFO, lit "OAuth token (masked): %s", [Obj (VStr token)])
     (log_records (trace (FhirClient.search_patients w params token tt))).
Proof.
  unfold FhirClient.search_patients. cbv zeta. unfold info.
  rewrite !bind_emit_trace. cbn. auto.
Qed.

(** The terminal demo writes the bearer token, whole, to the log widget
    and to the log file. *)
Example smart_login_logs_raw_token :
  let w := FhirTextual.World (fun _ _ _ => (Scenario.authorize_url, lit "XYZ")) true
             [Request (lit "GET") (lit "/cb?code=ABC123&state=XYZ")]
             (fun _ _ _ _ _ => inr Scenario.token_response)
             (fun _ => inl (lit "Incorrect padding"))
             (fun _ => inr (lit "{}")) in
  let r := FhirTextual.smart_login
             (FhirTextual.Config (lit "idp.example.com") (lit "client-1") (lit "s3cret"))
             w (FhirTextual.Build_App VNone) in
  In (WidgetWrite Scenario.access_token) (trace r)
  /\ In (FileAppend (Scenario.access_token ++ [10%N])) (trace r).
Proof.
  vm_compute. split; find_in.
Qed.

(** ** Splitting a request target *)

Lemma split1_at_first (sep : char) (p q : str) :
  ~ In sep p -> split1 sep (p ++ sep :: q) = (p, Some q).
Proof.
  induction p as [| c p IH]; intro Hp; simpl.
  - rewrite N.eqb_refl. reflexivity.
  - destruct (N.eqb_spec c sep) as [-> | _].
    + exfalso. apply Hp. left. reflexivity.
    + rewrite IH; [reflexivity |]. intro H. apply Hp. right. assumption.
Qed.

Lemma split1_absent (sep : char) (p : str) :
  ~ In sep p -> split1 sep p = (p, None).
Proof.
  induction p as [| c p IH]; intro Hp; simpl; [reflexivity |].
  destruct (N.eqb_spec c sep) as [-> | _].
  - exfalso. apply Hp. left. reflexivity.
  - rewrite IH; [reflexivity |]. intro H. apply Hp. right. assumption.
Qed.

Lemma split1_fst_app (sep : char) (p r : str) :
  ~ In sep p -> fst (split1 sep (p ++ r)) = p ++ fst (split1 sep r).
Proof.
  induction p as [| c p IH]; intro Hp; simpl; [reflexivity |].
  destruct (N.eqb_spec c sep) as [-> | _].
  - exfalso. apply Hp. left. reflexivity.
  - specialize (IH (fun H => Hp (or_intror H))).
    destruct (split1 sep (p ++ r)). simpl in *. rewrite IH. reflexivity.
Qed.

Lemma split_absent (sep : char) (p : str) :
  ~ In sep p -> split sep p = [p].
Proof.
  induction p as [| c p IH]; intro Hp; simpl; [reflexivity |].
  destruct (N.eqb_spec c sep) as [-> | _].
  - exfalso. apply Hp. left. reflexivity.
  - rewrite IH; [reflexivity |]. intro H. apply Hp. right. assumption.
Qed.

Lemma split_at_first (sep : char) (p q : str) :
  ~ In sep p -> split sep (p ++ sep :: q) = p :: split sep q.
Proof.
  induction p as [| c p IH]; intro Hp; simpl.
  - rewrite N.eqb_refl. reflexivity.
  - destruct (N.eqb_spec c sep) as [-> | _].
    + exfalso. apply Hp. left. reflexivity.
    + rewrite IH; [reflexivity |]. intro H. apply Hp. right. assumption.
Qed.

(** The query of a target does not depend on the path in front of it. *)
Lemma urlparse_query_of_path (p q : str) :
  ~ In 63%N p -> ~ In 35%N p ->
  UrlParse.urlparse_query (p ++ 63%N :: q) = fst (split1 35%N q).
Proof.
  intros Hq Hf. unfold UrlParse.urlparse_query.
  rewrite split1_fst_app by assumption.
  assert (E : fst (split1 35%N (63%N :: q)) = 63%N :: fst (split1 35%N q)).
  { simpl. destruct (split1 35%N q). reflexivity. }
  rewrite E, split1_at_first by assumption. reflexivity.
Qed.

Lemma query_code_of_path (p q : str) :
  ~ In 63%N p -> ~ In 35%N p ->
  query_code (p ++ 63%N :: q) = query_code (63%N :: q).
Proof.
  intros Hq Hf. unfold query_code, query_param.
  rewrite urlparse_query_of_path by assumption.
  change (63%N :: q) with ([] ++ 63%N :: q).
  rewrite urlparse_query_of_path by (intros []). reflexivity.
Qed.

(** ** Requests on other paths *)




(** ** A redirect that reports an error *)

(** String literals of a goal, computed. *)
Ltac eval_lits :=
  repeat match goal with
         | |- context [lit ?t] =>
             let x := eval vm_compute in (lit t) in change (lit t) with x
         end.

Lemma not_in_app (c : char) (a b : str) :
  ~ In c (a ++ b) -> ~ In c a /\ ~ In c b.
Proof.
  intro H. split; intro Hin; apply H, in_or_app; auto.
Qed.

(** A query made of an [error] and an [error_description] has no
    [code]. *)
Lemma error_query_has_no_code (p e d : str) :
  ~ In 63%N p -> ~ In 35%N p ->
  ~ In 38%N (e ++ d) -> ~ In 35%N (e ++ d) ->
  query_code (p ++ lit "?error=" ++ e ++ lit "&error_description=" ++ d) = None.
Proof.
  intros Hq Hf Hamp Hfrag.
  apply not_in_app in Hamp. destruct Hamp as [Hamp_e Hamp_d].
  eval_lits. cbn [app].
  rewrite query_code_of_path by assumption.
  unfold query_code, query_param.
  change (63%N :: ?x) with ([] ++ 63%N :: x).
  rewrite urlparse_query_of_path by (intros []).
  rewrite split1_absent.
  2: { cbn [In app]. intro H.
       repeat (destruct H as [H | H]; [discriminate H |]).
       apply in_app_or in H. destruct H as [H | H].
       - apply Hfrag, in_or_app. left. assumption.
       - cbn [In] in H.
         repeat (destruct H as [H | H]; [discriminate H |]).
         apply Hfrag, in_or_app. right. assumption. }
  cbn [fst]. unfold UrlParse.parse_qs, UrlParse.parse_qsl.
  change (101 :: 114 :: 114 :: 111 :: 114 :: 61 :: e ++ ?x)%N
    with (([101; 114; 114; 111; 114; 61] ++ e) ++ x)%N.
  change (38 :: ?x)%N with ([] ++ 38 :: x)%N at 1.
  rewrite app_nil_l.
  rewrite split_at_first.
  2: { cbn [In app]. intro H.
       repeat (destruct H as [H | H]; [discriminate H |]).
       contradiction. }
  rewrite split_absent.
  2: { cbn [In app]. intro H.
       repeat (destruct H as [H | H]; [discriminate H |]).
       contradiction. }
  cbn [flat_map app]. unfold UrlParse.parse_field. cbn [app split1 N.eqb Pos.eqb].
  destruct e as [| ce e']; destruct d as [| cd d']; reflexivity.
Qed.

(** C6, as the code contradicts it.  The provider redirects with
    [error=access_denied]: the login attempt does not end with an error -
    it stays in the wait - and nothing of the error or its description
    reaches the log. *)
Lemma provider_error_is_not_surfaced :
  let w := Scenario.world (lit "XYZ")
             [Request (lit "GET")
                (lit "/cb?error=access_denied&error_description=User+denied+access")]
             (inr Scenario.token_response) in
  let r := SmartAuth.login Scenario.cfg w SmartAuth.__init__ in
  out r = Blocked
  /\ existsb (record_shows (lit "access_denied")) (log_records (trace r)) = false
  /\ existsb (record_shows (lit "denied")) (log_records (trace r)) = false.
Proof.
  vm_compute. repeat split.
Qed.

(** C6, amended.  A redirect that carries an [error] and an
    [error_description] and no code is answered 200 like any other
    request and is otherwise ignored: the login attempt ends as it would
    have ended had the request not arrived, and stays in the wait when
    nothing follows. *)
Theorem error_redirect_keeps_waiting (cfg : SmartAuth.config) (w : SmartAuth.world)
    (s : SmartAuth.Session) (p e d : str) (rest : list request) :
  ~ In 63%N p -> ~ In 35%N p ->
  ~ In 38%N (e ++ d) -> ~ In 35%N (e ++ d) ->
  SmartAuth.bind_succeeds w = true ->
  SmartAuth.incoming w
  = Request (lit "GET") (p ++ lit "?error=" ++ e ++ lit "&error_description=" ++ d)
    :: rest ->
  out (SmartAuth.login cfg w s)
  = out (SmartAuth.login cfg (SmartAuth.with_incoming w rest) s)
  /\ final (SmartAuth.login cfg w s)
     = final (SmartAuth.login cfg (SmartAuth.with_incoming w rest) s)
  /\ In (Response 200 SmartAuth.confirmation_page) (trace (SmartAuth.login cfg w s))
  /\ (rest = [] -> out (SmartAuth.login cfg w s) = Blocked).
Proof.
  intros Hq Hf Hamp Hfrag Hbind Hin.
  pose proof (error_query_has_no_code p e d Hq Hf Hamp Hfrag) as Hnone.
  assert (Hr : carries_code
                 (Request (lit "GET")
                    (p ++ lit "?error=" ++ e ++ lit "&error_description=" ++ d))
               = None).
  { unfold carries_code. cbn [command path].
    change (str_eqb (lit "GET") (lit "GET")) with true. cbv iota. exact Hnone. }
  assert (Hresp : forall post,
             In (Response 200 SmartAuth.confirmation_page)
                (([ Log INFO (lit "Starting SMART on FHIR PKCE flow …") [];
                    BrowserOpen
                      (fst (SmartAuth.create_authorization_url w
                              (SmartAuth.oauth_session cfg)
                              (SmartAuth.authorize_endpoint cfg)
                              [(lit "audience", SmartAuth.FHIR_BASE cfg);
                               (lit "prompt", lit "consent")]));
                    Log INFO (lit "Browser opened → %s")
                      [Obj (VStr
                         (fst (SmartAuth.create_authorization_url w
                                 (SmartAuth.oauth_session cfg)
                                 (SmartAuth.authorize_endpoint cfg)
                                 [(lit "audience", SmartAuth.FHIR_BASE cfg);
                                  (lit "prompt", lit "consent")])))] ]
                  ++ Bind (SmartAuth.REDIRECT_URI cfg)
                     :: answered SmartAuth.confirmation_page (SmartAuth.incoming w))
                 ++ post)).
  { intro post. rewrite Hin. cbn [answered]. unfold answer at 1. cbn [command].
    change (str_eqb (lit "GET") (lit "GET")) with true. cbv iota.
    apply in_or_app. left. apply in_or_app. right. right. left. reflexivity. }
  rewrite !login_run. cbv zeta.
  cbn [SmartAuth.with_incoming SmartAuth.bind_succeeds SmartAuth.incoming
       SmartAuth.fetch_token SmartAuth.create_authorization_url].
  rewrite Hbind.
  assert (Hfirst : first_code (SmartAuth.incoming w) = first_code rest).
  { rewrite Hin. cbn [first_code]. rewrite Hr. reflexivity. }
  rewrite Hfirst.
  destruct (first_code rest) as [code |] eqn:Hrest.
  - destruct (SmartAuth.fetch_token _ _ _ _ _ _) as [e' | t]; cbn [out final trace].
    + repeat split.
      * rewrite <- app_assoc. apply Hresp.
      * intros ->. discriminate Hrest.
    + destruct (dict_lookup t (lit "access_token")) as [v |]; cbn [out final trace].
      * destruct (SmartAuth._mask v 8); cbn [out final trace]; repeat split;
          try (rewrite <- app_assoc; apply Hresp);
          intros ->; discriminate Hrest.
      * repeat split.
        -- rewrite <- app_assoc. apply Hresp.
        -- intros ->. discriminate Hrest.
  - cbn [out final trace]. repeat split.
    rewrite <- (app_nil_r (_ ++ _ :: answered _ _)). apply Hresp.
Qed.

Lemma error_redirect_keeps_waiting_witness :
  let w := Scenario.world (lit "XYZ")
             [Request (lit "GET")
                (lit "/cb" ++ lit "?error=" ++ lit "access_denied"
                 ++ lit "&error_description=" ++ lit "User+denied+access")]
             (inr Scenario.token_response) in
  out (SmartAuth.login Scenario.cfg w SmartAuth.__init__) = Blocked.
Proof.
  intro w.
  apply (@error_redirect_keeps_waiting Scenario.cfg w SmartAuth.__init__
           (lit "/cb") (lit "access_denied") (lit "User+denied+access") []);
    try reflexivity;
    vm_compute; intro H; repeat (destruct H as [H | H]; [discriminate H |]); exact H.
Defined.

(* ===================================================================== *)
(** * Further properties of the code *)
(* ===================================================================== *)

Import Measures.

(** ** What a mask hides *)

Lemma starts_with_app (p s : str) : starts_with p (p ++ s) = true.
Proof.
  induction p as [| c p IH]; [destruct s; reflexivity |].
  simpl. rewrite N.eqb_refl. exact IH.
Qed.

Lemma contains_prefix (p s : str) : contains (p ++ s) p = true.
Proof.
  destruct p as [| c p]; [destruct s; reflexivity |].
  cbn [app contains]. fold (app p s).
  change (c :: p ++ s) with ((c :: p) ++ s).
  rewrite starts_with_app. reflexivity.
Qed.

Lemma contains_app_r (a b p : str) :
  contains b p = true -> contains (a ++ b) p = true.
Proof.
  intro H. induction a as [| c a IH]; [exact H |].
  cbn [app contains]. rewrite IH. apply orb_true_r.
Qed.

Lemma contains_middle (a p b : str) : contains (a ++ p ++ b) p = true.
Proof. apply contains_app_r, contains_prefix. Qed.

Lemma starts_with_length (p s : str) :
  starts_with p s = true -> List.length p <= List.length s.
Proof.
  revert s. induction p as [| c p IH]; intros s H; simpl; [lia |].
  destruct s as [| d s]; [discriminate |].
  simpl in H. apply andb_true_iff in H. destruct H as [_ H].
  apply IH in H. simpl. lia.
Qed.

Lemma contains_length (s p : str) :
  contains s p = true -> List.length p <= List.length s.
Proof.
  induction s as [| c s IH]; cbn [contains]; intro H.
  - rewrite orb_false_r in H. apply starts_with_length in H. exact H.
  - apply orb_true_iff in H. destruct H as [H | H].
    + apply starts_with_length in H. exact H.
    + apply IH in H. simpl. lia.
Qed.

Lemma mask_of_string (tok : str) (n : Z) :
  tok <> [] -> (0 <= n)%Z ->
  SmartAuth._mask (VStr tok) n = inr (firstn (Z.to_nat n) tok ++ lit "…").
Proof.
  intros Htok Hn. unfold SmartAuth._mask. rewrite (truthy_str Htok).
  unfold slice_to. destruct (Z.leb_spec 0 n); [reflexivity | lia].
Qed.

(** A token of at most [n] characters is shown whole in its mask, so
    masking hides nothing of it; a token of more than [n + 1] characters
    is never shown whole. *)
Theorem mask_hides_only_long_tokens (tok : str) (n : Z) :
  tok <> [] -> (0 <= n)%Z ->
  exists masked,
    SmartAuth._mask (VStr tok) n = inr masked
    /\ (List.length tok <= Z.to_nat n -> masked = tok ++ lit "…")
    /\ (List.length tok <= Z.to_nat n -> contains masked tok = true)
    /\ (Z.to_nat n + 1 < List.length tok -> contains masked tok = false).
Proof.
  intros Htok Hn.
  exists (firstn (Z.to_nat n) tok ++ lit "…").
  split; [apply mask_of_string; assumption |].
  repeat split.
  - intro Hlen. rewrite firstn_all2 by exact Hlen. reflexivity.
  - intro Hlen. rewrite firstn_all2 by exact Hlen. apply contains_prefix.
  - intro Hlen.
    destruct (contains (firstn (Z.to_nat n) tok ++ lit "…") tok) eqn:E;
      [| reflexivity].
    apply contains_length in E. rewrite length_app, length_firstn in E.
    change (List.length (lit "…")) with 1 in E. lia.
Qed.

Lemma mask_hides_only_long_tokens_witness :
  exists masked,
    SmartAuth._mask (VStr (lit "tok_abc")) 8 = inr masked
    /\ contains masked (lit "tok_abc") = true.
Proof.
  destruct (@mask_hides_only_long_tokens (lit "tok_abc") 8) as [m [H1 [_ [H3 _]]]].
  - vm_compute. discriminate.
  - lia.
  - exists m. split; [exact H1 |]. apply H3. vm_compute. lia.
Defined.

Lemma mask_negative_bound_witness :
  SmartAuth._mask (VStr (lit "tok_abcdefghijkl")) (-1) = inr (lit "tok_abcdefghijk…").
Proof.
  apply (@mask_negative_bound (lit "tok_abcdefghijkl") (-1)).
  - vm_compute. discriminate.
  - lia.
Defined.

(** ** The extractor as the module stands *)

(** For every session the extractor returns [None] and leaves the
    session alone; when the session has a token it logs one record, the
    [NameError] for the name [jwt], and the token is never parsed. *)
Theorem extract_patient_always_none (s : SmartAuth.Session) :
  SmartAuth._extract_patient s
  = Run (Returned VNone) s
      (if truthy (SmartAuth.token s)
       then [Log INFO (lit "Access parse failed: %s") [Exn (NameError (lit "jwt"))]]
       else []).
Proof.
  unfold SmartAuth._extract_patient, SmartAuth._extract_patient_with, bind, get.
  destruct (truthy (SmartAuth.token s)); reflexivity.
Qed.

(** ** The token exchange within a login attempt *)

Lemma token_requests_app (t u : list event) :
  token_requests (t ++ u) = token_requests t ++ token_requests u.
Proof. unfold token_requests. apply flat_map_app. Qed.

Lemma token_requests_answered (page : str) (reqs : list request) :
  token_requests (answered page reqs) = [].
Proof.
  induction reqs as [| r rest IH]; [reflexivity |].
  cbn [answered]. unfold answer.
  destruct (str_eqb (command r) (lit "GET")); cbn [token_requests flat_map app];
    (destruct (carries_code r); [reflexivity | exact IH]).
Qed.

(** The codes sent to the token endpoint, for every way a login goes. *)
Lemma token_requests_of_login (cfg : SmartAuth.config) (w : SmartAuth.world)
    (s : SmartAuth.Session) :
  token_requests (trace (SmartAuth.login cfg w s))
  = if SmartAuth.bind_succeeds w then
      match first_code (SmartAuth.incoming w) with
      | Some code => [code]
      | None => []
      end
    else [].
Proof.
  rewrite login_run. cbv zeta.
  destruct (SmartAuth.bind_succeeds w); [| reflexivity].
  destruct (first_code (SmartAuth.incoming w)) as [code |].
  - assert (E : forall post : list event,
               token_requests post = [] ->
               token_requests
                 ((([ Log INFO (lit "Starting SMART on FHIR PKCE flow …") [];
                      BrowserOpen
                        (fst (SmartAuth.create_authorization_url w
                                (SmartAuth.oauth_session cfg)
                                (SmartAuth.authorize_endpoint cfg)
                                [(lit "audience", SmartAuth.FHIR_BASE cfg);
                                 (lit "prompt", lit "consent")]));
                      Log INFO (lit "Browser opened → %s")
                        [Obj (VStr
                           (fst (SmartAuth.create_authorization_url w
                                   (SmartAuth.oauth_session cfg)
                                   (SmartAuth.authorize_endpoint cfg)
                                   [(lit "audience", SmartAuth.FHIR_BASE cfg);
                                    (lit "prompt", lit "consent")])))] ]
                    ++ Bind (SmartAuth.REDIRECT_URI cfg)
                       :: answered SmartAuth.confirmation_page (SmartAuth.incoming w))
                   ++ [ SocketClose;
                        Log INFO (lit "Authorization code received: %s")
                          [Obj (VStr code)];
                        TokenRequest (SmartAuth.token_endpoint cfg) code
                          (SmartAuth.CLIENT_SECRET cfg)
                          (Some (SmartAuth.REDIRECT_URI cfg)) ])
                  ++ post) = [code]).
    { intros post Hpost. rewrite !token_requests_app, Hpost.
      cbn [token_requests flat_map app].
      change (flat_map _ (answered SmartAuth.confirmation_page (SmartAuth.incoming w)))
        with (token_requests
                (answered SmartAuth.confirmation_page (SmartAuth.incoming w))).
      rewrite token_requests_answered. reflexivity. }
    destruct (SmartAuth.fetch_token _ _ _ _ _ _) as [e | d]; cbn [trace];
      [apply E; reflexivity |].
    destruct (dict_lookup d (lit "access_token")) as [v |]; cbn [trace];
      [| apply E; reflexivity].
    destruct (SmartAuth._mask v 8); cbn [trace]; apply E; reflexivity.
  - cbn [trace]. rewrite token_requests_app. cbn [token_requests flat_map app].
    change (flat_map _ (answered SmartAuth.confirmation_page (SmartAuth.incoming w)))
      with (token_requests
              (answered SmartAuth.confirmation_page (SmartAuth.incoming w))).
    rewrite token_requests_answered. reflexivity.
Qed.


(** When the port cannot be bound the attempt ends with [OSError]: the
    browser was already sent to the provider, nothing was listened for,
    nothing is exchanged and the session is as before. *)
Theorem login_bind_failure (cfg : SmartAuth.config) (w : SmartAuth.world)
    (s : SmartAuth.Session) :
  SmartAuth.bind_succeeds w = false ->
  exists auth_url,
    SmartAuth.login cfg w s
    = Run (Raised OSError) s
        [ Log INFO (lit "Starting SMART on FHIR PKCE flow …") [];
          BrowserOpen auth_url;
          Log INFO (lit "Browser opened → %s") [Obj (VStr auth_url)] ].
Proof.
  intro Hbind. rewrite login_run, Hbind. cbv zeta. eexists. reflexivity.
Qed.

Lemma login_bind_failure_witness :
  exists auth_url,
    SmartAuth.login Scenario.cfg
      (SmartAuth.World (fun _ _ _ => (Scenario.authorize_url, lit "XYZ")) false
         [Request (lit "GET") (lit "/cb?code=ABC123")]
         (fun _ _ _ _ _ => inr Scenario.token_response))
      Scenario.earlier_session
    = Run (Raised OSError) Scenario.earlier_session
        [ Log INFO (lit "Starting SMART on FHIR PKCE flow …") [];
          BrowserOpen auth_url;
          Log INFO (lit "Browser opened → %s") [Obj (VStr auth_url)] ].
Proof.
  apply (@login_bind_failure Scenario.cfg
           (SmartAuth.World (fun _ _ _ => (Scenario.authorize_url, lit "XYZ")) false
              [Request (lit "GET") (lit "/cb?code=ABC123")]
              (fun _ _ _ _ _ => inr Scenario.token_response))
           Scenario.earlier_session).
  reflexivity.
Defined.

(** No login attempt, however it ends, touches the patient reference:
    the extraction at the end of [login] is commented out. *)
Theorem login_keeps_patient_ref (cfg : SmartAuth.config) (w : SmartAuth.world)
    (s : SmartAuth.Session) :
  SmartAuth.patient_ref (final (SmartAuth.login cfg w s)) = SmartAuth.patient_ref s.
Proof.
  rewrite login_run. cbv zeta.
  destruct (SmartAuth.bind_succeeds w); [| reflexivity].
  destruct (first_code (SmartAuth.incoming w)); [| reflexivity].
  destruct (SmartAuth.fetch_token _ _ _ _ _ _) as [e | d]; [reflexivity |].
  destruct (dict_lookup d (lit "access_token")) as [v |]; [| reflexivity].
  destruct (SmartAuth._mask v 8); reflexivity.
Qed.





(** ** Decoding the query *)


Lemma utf8_decode_nonempty (bs : list N) : utf8_decode bs = [] -> bs = [].
Proof.
  destruct bs as [| b0 t0]; [reflexivity |]. cbn [utf8_decode].
  repeat match goal with
         | |- context [if ?c then _ else _] => destruct c
         | |- context [match ?l with [] => _ | _ :: _ => _ end] => destruct l
         end; discriminate.
Qed.



(** Unquoting never empties a string. *)
Lemma unquote_from_nonempty (n : nat) :
  forall (s : str) (run : list N),
    List.length s <= n -> UrlParse.unquote_from run s = [] -> run = [] /\ s = [].
Proof.
  induction n as [| n IH]; intros s run Hlen H.
  - destruct s; [| simpl in Hlen; lia].
    cbn [UrlParse.unquote_from] in H. apply utf8_decode_nonempty in H.
    split; [| reflexivity]. destruct run; [reflexivity |].
    cbn [rev] in H. apply app_eq_nil in H. destruct H as [_ H]. discriminate H.
  - destruct s as [| c s].
    + cbn [UrlParse.unquote_from] in H. apply utf8_decode_nonempty in H.
      split; [| reflexivity]. destruct run; [reflexivity |].
      cbn [rev] in H. apply app_eq_nil in H. destruct H as [_ H]. discriminate H.
    + exfalso. cbn [List.length] in Hlen. cbn [UrlParse.unquote_from] in H.
      destruct (128 <=? c)%N.
      * apply app_eq_nil in H. destruct H as [_ H]. discriminate H.
      * destruct (c =? 37)%N.
        -- destruct s as [| h1 [| h2 s'']].
           ++ apply IH in H; [| simpl in *; lia]. destruct H as [H _]. discriminate H.
           ++ apply IH in H; [| simpl in *; lia]. destruct H as [H _]. discriminate H.
           ++ destruct (UrlParse.hex_val h1), (UrlParse.hex_val h2);
                (apply IH in H; [| simpl in *; lia]); destruct H as [H _];
                discriminate H.
        -- apply IH in H; [| lia]. destruct H as [H _]. discriminate H.
Qed.

Lemma decode_component_nonempty (s : str) :
  s <> [] -> UrlParse.decode_component s <> [].
Proof.
  intros Hs H. unfold UrlParse.decode_component, UrlParse.unquote in H.
  apply (@unquote_from_nonempty (List.length (UrlParse.plus_to_space s))) in H;
    [| lia].
  destruct H as [_ H]. destruct s; [contradiction | discriminate H].
Qed.

Lemma add_value_nonempty (name value : str) (parsed : list (str * list str)) :
  value <> [] -> values_nonempty parsed ->
  values_nonempty (UrlParse.add_value name value parsed).
Proof.
  intros Hv. induction parsed as [| [n0 vs0] rest IH]; intros Hp n vs v Hin Hinv.
  - destruct Hin as [[= <- <-] | []]. destruct Hinv as [<- | []]. exact Hv.
  - cbn [UrlParse.add_value] in Hin. destruct (str_eqb n0 name).
    + destruct Hin as [[= <- <-] | Hin].
      * apply in_app_or in Hinv. destruct Hinv as [Hinv | [<- | []]].
        -- apply (Hp n0 vs0 v); [left; reflexivity | exact Hinv].
        -- exact Hv.
      * apply (Hp n vs v); [right; exact Hin | exact Hinv].
    + destruct Hin as [[= <- <-] | Hin].
      * apply (Hp n0 vs0 v); [left; reflexivity | exact Hinv].
      * apply (IH (fun n' vs' v' H1 H2 => Hp n' vs' v' (or_intror H1) H2)
                 n vs v Hin Hinv).
Qed.

Lemma parse_qsl_values_nonempty (qs : str) (n v : str) :
  In (n, v) (UrlParse.parse_qsl qs) -> v <> [].
Proof.
  unfold UrlParse.parse_qsl. intro Hin. apply in_flat_map in Hin.
  destruct Hin as [field [_ Hin]]. unfold UrlParse.parse_field in Hin.
  destruct (split1 61%N field) as [name [[| c rest] |]]; try destruct Hin.
  - injection H as _ <-. apply decode_component_nonempty. discriminate.
  - destruct H.
Qed.

Lemma fold_add_value_nonempty (pairs : list (str * str)) :
  (forall n v, In (n, v) pairs -> v <> []) ->
  forall parsed, values_nonempty parsed ->
  values_nonempty
    (fold_left (fun parsed nv => UrlParse.add_value (fst nv) (snd nv) parsed)
       pairs parsed).
Proof.
  induction pairs as [| [n v] pairs IH]; intros Hpairs parsed Hp; [exact Hp |].
  cbn [fold_left fst snd]. apply IH.
  - intros n' v' Hin. apply (Hpairs n' v'). right. exact Hin.
  - apply add_value_nonempty; [| exact Hp].
    apply (Hpairs n v). left. reflexivity.
Qed.

Lemma lookup_in (parsed : list (str * list str)) (name : str) (vs : list str) :
  UrlParse.lookup parsed name = Some vs -> exists n, In (n, vs) parsed.
Proof.
  induction parsed as [| [n0 vs0] rest IH]; [discriminate |].
  cbn [UrlParse.lookup]. destruct (str_eqb n0 name).
  - intros [= <-]. exists n0. left. reflexivity.
  - intro H. destruct (IH H) as [n Hin]. exists n. right. exact Hin.
Qed.

Lemma query_param_nonempty (name path v : str) :
  query_param name path = Some v -> v <> [].
Proof.
  unfold query_param.
  destruct (UrlParse.lookup _ name) as [[| v0 vs] |] eqn:E; try discriminate.
  intros [= <-]. apply lookup_in in E. destruct E as [n Hin].
  assert (Hall : values_nonempty (UrlParse.parse_qs (UrlParse.urlparse_query path))).
  { unfold UrlParse.parse_qs. apply fold_add_value_nonempty.
    - intros n' v'. apply parse_qsl_values_nonempty.
    - intros n' vs' v' []. }
  apply (Hall n (v0 :: vs) v0 Hin). left. reflexivity.
Qed.

Lemma str_eqb_eq (a b : str) : str_eqb a b = true -> a = b.
Proof.
  revert b. induction a as [| x a IH]; intros [| y b] H; try discriminate;
    [reflexivity |].
  simpl in H. apply andb_true_iff in H. destruct H as [Hx Hab].
  apply N.eqb_eq in Hx. rewrite Hx, (IH b Hab). reflexivity.
Qed.

Lemma first_code_origin (reqs : list request) (code : str) :
  first_code reqs = Some code ->
  exists r, In r reqs /\ carries_code r = Some code.
Proof.
  induction reqs as [| r rest IH]; [discriminate |].
  cbn [first_code]. destruct (carries_code r) as [c |] eqn:E.
  - intros [= <-]. exists r. split; [left; reflexivity | exact E].
  - intro H. destruct (IH H) as [r' [Hin Hr']].
    exists r'. split; [right; exact Hin | exact Hr'].
Qed.

(** Whatever code a login attempt sends to the token endpoint is the
    [code] parameter of a [GET] request that arrived at the listener, and
    it is never the empty string: a blank [code=] is no code. *)
Theorem exchanged_code_comes_from_a_request (cfg : SmartAuth.config)
    (w : SmartAuth.world) (s : SmartAuth.Session) (code : str) :
  In code (token_requests (trace (SmartAuth.login cfg w s))) ->
  code <> []
  /\ exists r, In r (SmartAuth.incoming w)
               /\ command r = lit "GET"
               /\ query_code (path r) = Some code.
Proof.
  rewrite token_requests_of_login.
  destruct (SmartAuth.bind_succeeds w); [| intros []].
  destruct (first_code (SmartAuth.incoming w)) as [c |] eqn:E; [| intros []].
  intros [<- | []]. apply first_code_origin in E. destruct E as [r [Hin Hr]].
  unfold carries_code in Hr.
  destruct (str_eqb (command r) (lit "GET")) eqn:Hget; [| discriminate].
  split.
  - apply (@query_param_nonempty (lit "code") (path r)). exact Hr.
  - exists r. repeat split; try assumption. apply str_eqb_eq. exact Hget.
Qed.

Lemma exchanged_code_comes_from_a_request_witness :
  lit "ABC123" <> []
  /\ exists r, In r [Request (lit "POST") (lit "/cb?code=NOPE");
                     Request (lit "GET") (lit "/cb?code=&state=XYZ");
                     Request (lit "GET") (lit "/cb?code=ABC123&state=XYZ")]
               /\ command r = lit "GET"
               /\ query_code (path r) = Some (lit "ABC123").
Proof.
  apply (@exchanged_code_comes_from_a_request Scenario.cfg
           (Scenario.world (lit "XYZ")
              [Request (lit "POST") (lit "/cb?code=NOPE");
               Request (lit "GET") (lit "/cb?code=&state=XYZ");
               Request (lit "GET") (lit "/cb?code=ABC123&state=XYZ")]
              (inr Scenario.token_response))
           SmartAuth.__init__ (lit "ABC123")).
  vm_compute. left. reflexivity.
Defined.




(** ** One request ends the wait *)







(** ** The token in the serialised response *)

Lemma escape_char_plain (c : char) :
  json_plain c = true -> Json.escape_char c = [c].
Proof.
  unfold json_plain, Json.escape_char. intro H.
  apply andb_true_iff in H. destruct H as [H H92].
  apply andb_true_iff in H. destruct H as [H H34].
  rewrite H. apply negb_true_iff in H92, H34. rewrite H92, H34. reflexivity.
Qed.

Lemma quote_plain (t : str) :
  forallb json_plain t = true -> Json.quote t = 34%N :: t ++ [34%N].
Proof.
  intro H. unfold Json.quote. cbn [app]. do 2 f_equal.
  induction t as [| c t IH]; [reflexivity |].
  cbn [forallb] in H. apply andb_true_iff in H. destruct H as [Hc Ht].
  cbn [flat_map]. rewrite (escape_char_plain _ Hc), (IH Ht). reflexivity.
Qed.

Lemma join_shows_item (sep x : str) (items : list str) :
  In x items -> exists a b, join sep items = a ++ x ++ b.
Proof.
  induction items as [| p ps IH]; [intros [] |].
  intros [<- | Hin].
  - destruct ps as [| q ps].
    + exists [], []. cbn [join app]. rewrite app_nil_r. reflexivity.
    + exists [], (sep ++ join sep (q :: ps)). reflexivity.
  - destruct (IH Hin) as [a [b E]]. destruct ps as [| q ps]; [destruct Hin |].
    exists (p ++ sep ++ a), b.
    change (join sep (p :: q :: ps)) with (p ++ sep ++ join sep (q :: ps)).
    rewrite E, <- !app_assoc. reflexivity.
Qed.

Lemma dict_lookup_in (d : dict) (k : str) (v : value) :
  dict_lookup d k = Some v -> exists k', In (k', v) d.
Proof.
  induction d as [| [k0 v0] d IH]; [discriminate |].
  cbn [dict_lookup]. destruct (str_eqb k0 k).
  - intros [= <-]. exists k0. left. reflexivity.
  - intro H. destruct (IH H) as [k' Hin]. exists k'. right. exact Hin.
Qed.

(** A string value of printable characters, the quote and the backslash
    apart, stands in the serialised dictionary as it is. *)
Lemma dumps_shows_plain_string (d : dict) (k t : str) :
  dict_lookup d k = Some (VStr t) ->
  forallb json_plain t = true ->
  exists pre post, Json.dumps d = pre ++ t ++ post.
Proof.
  intros Hk Hplain. apply dict_lookup_in in Hk. destruct Hk as [k' Hin].
  unfold Json.dumps. cbn [Json.encode].
  set (item := fun kv : str * value =>
                 Json.quote (fst kv) ++ lit ": " ++ Json.encode 1 (snd kv)).
  assert (Hitem : In (item (k', VStr t)) (List.map item d))
    by (apply in_map; exact Hin).
  destruct (join_shows_item (lit "," ++ Json.newline_indent 1) _ _ Hitem)
    as [a [b E]].
  unfold Json.bracket. destruct (List.map item d) as [| i0 items] eqn:Hm;
    [destruct Hitem |].
  rewrite E. unfold item at 1. cbn [fst snd Json.encode].
  rewrite (quote_plain _ Hplain).
  exists (lit "{" ++ Json.newline_indent 1 ++ a ++ Json.quote k' ++ lit ": " ++ [34%N]),
         ([34%N] ++ b ++ Json.newline_indent 0 ++ lit "}").
  rewrite <- !app_assoc. cbn [app]. rewrite <- !app_assoc. reflexivity.
Qed.

Lemma full_response_is_logged (cfg : SmartAuth.config) (w : SmartAuth.world)
    (s : SmartAuth.Session) (v : value) :
  out (SmartAuth.login cfg w s) = Returned v ->
  exists d,
    dict_lookup d (lit "access_token") = Some v
    /\ In (INFO, lit "Full token response: %s", [Obj (VStr (Json.dumps d))])
          (log_records (trace (SmartAuth.login cfg w s))).
Proof.
  rewrite login_run. cbv zeta.
  destruct (SmartAuth.bind_succeeds w); [| discriminate].
  destruct (first_code (SmartAuth.incoming w)) as [code |]; [| discriminate].
  destruct (SmartAuth.fetch_token _ _ _ _ _ _) as [e | d]; [discriminate |].
  destruct (dict_lookup d (lit "access_token")) as [v' |] eqn:Hv; [| discriminate].
  destruct (SmartAuth._mask v' 8); [discriminate |].
  cbn [out trace]. intros [= <-]. exists d. split; [exact Hv |].
  rewrite log_records_app. apply in_or_app. right. left. reflexivity.
Qed.

(** Every login that returns a token made of printable characters (the
    quote and the backslash apart) has logged a record, at level INFO,
    that shows the token whole. *)
Theorem login_log_shows_the_token (cfg : SmartAuth.config) (w : SmartAuth.world)
    (s : SmartAuth.Session) (tok : str) :
  out (SmartAuth.login cfg w s) = Returned (VStr tok) ->
  forallb json_plain tok = true ->
  exists record,
    In record (log_records (trace (SmartAuth.login cfg w s)))
    /\ fst (fst record) = INFO
    /\ record_shows tok record = true.
Proof.
  intros Hout Hplain.
  destruct (full_response_is_logged _ _ _ Hout) as [d [Hv Hin]].
  destruct (dumps_shows_plain_string _ _ Hv Hplain) as [pre [post E]].
  exists (INFO, lit "Full token response: %s", [Obj (VStr (Json.dumps d))]).
  split; [exact Hin |]. split; [reflexivity |].
  unfold record_shows. cbn [fst snd existsb arg_shows].
  rewrite E, contains_middle. rewrite orb_true_r. reflexivity.
Qed.

Lemma login_log_shows_the_token_witness :
  exists record,
    In record
       (log_records
          (trace (SmartAuth.login Scenario.cfg
                    (Scenario.world (lit "XYZ")
                       [Request (lit "GET") (lit "/cb?code=ABC123&state=XYZ")]
                       (inr Scenario.token_response))
                    SmartAuth.__init__)))
    /\ fst (fst record) = INFO
    /\ record_shows Scenario.access_token record = true.
Proof.
  apply (@login_log_shows_the_token Scenario.cfg
           (Scenario.world (lit "XYZ")
              [Request (lit "GET") (lit "/cb?code=ABC123&state=XYZ")]
              (inr Scenario.token_response))
           SmartAuth.__init__ Scenario.access_token).
  - vm_compute. reflexivity.
  - vm_compute. reflexivity.
Defined.

(** ** The FHIR client *)

(** A response with an error status ends the patient search with
    [HTTPError] before anything is parsed: after the two records of the
    request and the record of the status comes one record at level
    ERROR, with the status and the first 300 characters of the body. *)
Theorem search_patients_error_status (w : FhirClient.world) (params token : str)
    (r : FhirClient.http_response) :
  FhirClient.requests_get w (FhirClient.FHIR_BASE ++ lit "/Patient?" ++ params)
    (FhirClient._headers token) = inr r ->
  (400 <= FhirClient.status_code r < 600)%N ->
  FhirClient.search_patients w params token tt
  = Run (Raised HTTPError) tt
      [ Log INFO (lit "FHIR GET %s")
          [Obj (VStr (FhirClient.FHIR_BASE ++ lit "/Patient?" ++ params))];
        Log INFO (lit "OAuth token (masked): %s") [Obj (VStr token)];
        Log INFO (lit "FHIR response status: %s")
          [Obj (VInt (Z.of_N (FhirClient.status_code r)))];
        Log ERROR (lit "FHIR request failed (%s): %s")
          [Obj (VInt (Z.of_N (FhirClient.status_code r)));
           Obj (VStr (firstn 300 (FhirClient.text r)))] ].
Proof.
  intros Hget [Hlo Hhi]. unfold FhirClient.search_patients. cbv zeta.
  rewrite Hget.
  cbv beta iota delta [bind try_except info emit ret raise lift
                       FhirClient.raise_for_status].
  apply N.leb_le in Hlo. apply N.ltb_lt in Hhi. rewrite Hlo, Hhi.
  reflexivity.
Qed.

Lemma search_patients_error_status_witness :
  out (FhirClient.search_patients
         (FhirClient.World
            (fun _ _ => inr (FhirClient.Build_response 401 (lit "Unauthorized")))
            (fun _ => inr [VStr (lit "never parsed")]))
         (lit "_maxresults=10") Scenario.access_token tt)
  = Raised HTTPError.
Proof.
  rewrite (@search_patients_error_status
             (FhirClient.World
                (fun _ _ => inr (FhirClient.Build_response 401 (lit "Unauthorized")))
                (fun _ => inr [VStr (lit "never parsed")]))
             (lit "_maxresults=10") Scenario.access_token
             (FhirClient.Build_response 401 (lit "Unauthorized")) eq_refl).
  - reflexivity.
  - cbn [FhirClient.status_code]. lia.
Defined.

(** A response with any other status is parsed, and the search returns
    the patients found and logs how many they are. *)
Theorem search_patients_success (w : FhirClient.world) (params token : str)
    (r : FhirClient.http_response) (patients : list value) :
  FhirClient.requests_get w (FhirClient.FHIR_BASE ++ lit "/Patient?" ++ params)
    (FhirClient._headers token) = inr r ->
  (FhirClient.status_code r < 400 \/ 600 <= FhirClient.status_code r)%N ->
  FhirClient.patients_of w (FhirClient.text r) = inr patients ->
  out (FhirClient.search_patients w params token tt) = Returned patients
  /\ log_records (trace (FhirClient.search_patients w params token tt))
     = [ (INFO, lit "FHIR GET %s",
          [Obj (VStr (FhirClient.FHIR_BASE ++ lit "/Patient?" ++ params))]);
         (INFO, lit "OAuth token (masked): %s", [Obj (VStr token)]);
         (INFO, lit "FHIR response status: %s",
          [Obj (VInt (Z.of_N (FhirClient.status_code r)))]);
         (INFO, lit "Found %d Patient resources",
          [Obj (VInt (Z.of_nat (List.length patients)))]) ].
Proof.
  intros Hget Hstatus Hparse. unfold FhirClient.search_patients. cbv zeta.
  rewrite Hget.
  cbv beta iota delta [bind try_except info emit ret raise lift
                       FhirClient.raise_for_status].
  assert (E : ((400 <=? FhirClient.status_code r)
               && (FhirClient.status_code r <? 600))%N = false).
  { apply andb_false_iff. destruct Hstatus as [H | H].
    - left. apply N.leb_gt. exact H.
    - right. apply N.ltb_ge. exact H. }
  rewrite E, Hparse. split; reflexivity.
Qed.

Lemma search_patients_success_witness :
  out (FhirClient.search_patients
         (FhirClient.World
            (fun _ _ => inr (FhirClient.Build_response 200 (lit "{}")))
            (fun _ => inr [VStr (lit "Patient/1"); VStr (lit "Patient/2")]))
         (lit "_maxresults=10") Scenario.access_token tt)
  = Returned [VStr (lit "Patient/1"); VStr (lit "Patient/2")].
Proof.
  refine (proj1 (@search_patients_success
                   (FhirClient.World
                      (fun _ _ => inr (FhirClient.Build_response 200 (lit "{}")))
                      (fun _ => inr [VStr (lit "Patient/1"); VStr (lit "Patient/2")]))
                   (lit "_maxresults=10") Scenario.access_token
                   (FhirClient.Build_response 200 (lit "{}"))
                   [VStr (lit "Patient/1"); VStr (lit "Patient/2")] eq_refl _ eq_refl)).
  left. cbn [FhirClient.status_code]. lia.
Defined.

(** When the request for the observations itself fails, the caller does
    not see the failure of the transport: the handler reads the unbound
    [r] and the call ends with the [NameError] for it, whatever the
    transport raised, and without a record of the failure. *)
Theorem observations_transport_failure_is_masked (w : FhirClient.world)
    (parse : str -> exc + list value) (patient_id token : str) (e : exc) :
  FhirClient.requests_get w
    (FhirClient.FHIR_BASE ++ lit "/Observation?subject=Patient/" ++ patient_id)
    (FhirClient._headers token) = inl e ->
  FhirReads.observations_for_patient w parse patient_id token tt
  = Run (Raised (NameError (lit "r"))) tt
      [ Log INFO (lit "FHIR GET %s")
          [Obj (VStr (FhirClient.FHIR_BASE ++ lit "/Observation?subject=Patient/"
                      ++ patient_id))];
        Log INFO (lit "OAuth token (masked): %s") [Obj (VStr token)] ].
Proof.
  intro Hget. unfold FhirReads.observations_for_patient. cbv zeta.
  rewrite Hget. reflexivity.
Qed.

Lemma observations_transport_failure_is_masked_witness :
  out (FhirReads.observations_for_patient
         (FhirClient.World (fun _ _ => inl (LibraryError (lit "Connection refused")))
            (fun _ => inr []))
         (fun _ => inr []) (lit "2") Scenario.access_token tt)
  = Raised (NameError (lit "r")).
Proof.
  rewrite (@observations_transport_failure_is_masked
             (FhirClient.World
                (fun _ _ => inl (LibraryError (lit "Connection refused")))
                (fun _ => inr []))
             (fun _ => inr []) (lit "2") Scenario.access_token
             (LibraryError (lit "Connection refused")) eq_refl).
  reflexivity.
Defined.

(** The read of the observations does not look at the status of the
    response: whatever the status, an error status included, a body that
    parses is returned as the observations, and the token is logged
    whole on the way. *)
Theorem observations_ignore_the_status (w : FhirClient.world)
    (parse : str -> exc + list value) (patient_id token : str)
    (r : FhirClient.http_response) (observations : list value) :
  FhirClient.requests_get w
    (FhirClient.FHIR_BASE ++ lit "/Observation?subject=Patient/" ++ patient_id)
    (FhirClient._headers token) = inr r ->
  parse (FhirClient.text r) = inr observations ->
  FhirReads.observations_for_patient w parse patient_id token tt
  = Run (Returned observations) tt
      [ Log INFO (lit "FHIR GET %s")
          [Obj (VStr (FhirClient.FHIR_BASE ++ lit "/Observation?subject=Patient/"
                      ++ patient_id))];
        Log INFO (lit "OAuth token (masked): %s") [Obj (VStr token)] ].
Proof.
  intros Hget Hparse. unfold FhirReads.observations_for_patient. cbv zeta.
  rewrite Hget.
  cbv beta iota delta [bind try_except info emit ret raise lift].
  rewrite Hparse. reflexivity.
Qed.

Lemma observations_ignore_the_status_witness :
  out (FhirReads.observations_for_patient
         (FhirClient.World
            (fun _ _ => inr (FhirClient.Build_response 401 (lit "{}")))
            (fun _ => inr []))
         (fun _ => inr []) (lit "2") Scenario.access_token tt)
  = Returned [].
Proof.
  rewrite (@observations_ignore_the_status
             (FhirClient.World
                (fun _ _ => inr (FhirClient.Build_response 401 (lit "{}")))
                (fun _ => inr []))
             (fun _ => inr []) (lit "2") Scenario.access_token
             (FhirClient.Build_response 401 (lit "{}")) [] eq_refl eq_refl).
  reflexivity.
Defined.

(** The read of one patient rejects an error status before it parses:
    it ends with [HTTPError], writes no log record, and what the parser
    would have made of the body plays no part. *)
Theorem get_patient_error_status (w : FhirClient.world)
    (parse : str -> exc + value) (patient_id token : str)
    (r : FhirClient.http_response) :
  FhirClient.requests_get w (FhirClient.FHIR_BASE ++ lit "/Patient/" ++ patient_id)
    (FhirClient._headers token) = inr r ->
  (400 <= FhirClient.status_code r < 600)%N ->
  FhirReads.get_patient w parse patient_id token tt = Run (Raised HTTPError) tt [].
Proof.
  intros Hget [Hlo Hhi]. unfold FhirReads.get_patient. cbv zeta.
  rewrite Hget.
  cbv beta iota delta [bind ret raise lift FhirClient.raise_for_status].
  apply N.leb_le in Hlo. apply N.ltb_lt in Hhi. rewrite Hlo, Hhi.
  reflexivity.
Qed.

Lemma get_patient_error_status_witness :
  FhirReads.get_patient
    (FhirClient.World (fun _ _ => inr (FhirClient.Build_response 404 (lit "{}")))
       (fun _ => inr []))
    (fun _ => inr (VStr (lit "never parsed"))) (lit "2") Scenario.access_token tt
  = Run (Raised HTTPError) tt [].
Proof.
  apply (@get_patient_error_status
           (FhirClient.World
              (fun _ _ => inr (FhirClient.Build_response 404 (lit "{}")))
              (fun _ => inr []))
           (fun _ => inr (VStr (lit "never parsed"))) (lit "2") Scenario.access_token
           (FhirClient.Build_response 404 (lit "{}")) eq_refl).
  cbn [FhirClient.status_code]. lia.
Defined.

(** Membership in a trace put together from lists and appends. *)
Ltac find_event :=
  solve [ left; reflexivity
        | right; find_event
        | apply in_or_app; left; find_event
        | apply in_or_app; right; find_event ].

(** ** The terminal demo *)

(** Without a token, [fetch_patient] tells the user so on the screen and
    asks the server nothing. *)
Theorem fetch_patient_needs_a_token (w : FhirTextual.world) (a : FhirTextual.App) :
  truthy (FhirTextual.token a) = false ->
  FhirTextual.fetch_patient w a
  = Run (Returned tt) a [WidgetWrite (lit "[red]You are not logged in.[/red]")].
Proof.
  intro H. unfold FhirTextual.fetch_patient, bind, get. rewrite H. reflexivity.
Qed.

Lemma fetch_patient_needs_a_token_witness :
  FhirTextual.fetch_patient
    (FhirTextual.World (fun _ _ _ => ([], [])) true [] (fun _ _ _ _ _ => inr [])
       (fun _ => inl []) (fun _ => inr (lit "never asked")))
    (FhirTextual.Build_App VNone)
  = Run (Returned tt) (FhirTextual.Build_App VNone)
      [WidgetWrite (lit "[red]You are not logged in.[/red]")].
Proof.
  apply (@fetch_patient_needs_a_token
           (FhirTextual.World (fun _ _ _ => ([], [])) true []
              (fun _ _ _ _ _ => inr []) (fun _ => inl [])
              (fun _ => inr (lit "never asked")))
           (FhirTextual.Build_App VNone)).
  reflexivity.
Defined.

Lemma split_three (h p s : str) :
  ~ In 46%N h -> ~ In 46%N p -> ~ In 46%N s ->
  split 46%N (h ++ 46%N :: p ++ 46%N :: s) = [h; p; s].
Proof.
  intros Hh Hp Hs.
  rewrite split_at_first by assumption.
  rewrite split_at_first by assumption.
  rewrite split_absent by assumption. reflexivity.
Qed.

(** Of a token of three segments the demo decodes the middle one and
    nothing else: the header and the signature play no part in what is
    shown, and a payload that does not decode is reported, not raised. *)
Theorem report_payload_decodes_the_middle_segment (w : FhirTextual.world)
    (a : FhirTextual.App) (h p s : str) :
  ~ In 46%N h -> ~ In 46%N p -> ~ In 46%N s ->
  FhirTextual.report_payload w (h ++ 46%N :: p ++ 46%N :: s) a
  = Run (Returned tt) a
      match FhirTextual.decode_payload w p with
      | inr pretty =>
          [ WidgetWrite (lit "[green]Decoded token payload:[/green]");
            FileAppend (lit "[green]Decoded token payload:[/green]" ++ [10%N]);
            WidgetWrite pretty;
            FileAppend (pretty ++ [10%N]) ]
      | inl e =>
          [ WidgetWrite (lit "[red]Failed to decode token:[/red] " ++ e);
            FileAppend ((lit "[red]Failed to decode token:[/red] " ++ e) ++ [10%N]) ]
      end.
Proof.
  intros Hh Hp Hs. unfold FhirTextual.report_payload. cbv zeta.
  rewrite split_three by assumption. cbn [List.length Nat.eqb nth].
  destruct (FhirTextual.decode_payload w p); reflexivity.
Qed.

Lemma report_payload_decodes_the_middle_segment_witness :
  FhirTextual.report_payload
    (FhirTextual.World (fun _ _ _ => ([], [])) true [] (fun _ _ _ _ _ => inr [])
       (fun _ => inl (lit "Incorrect padding")) (fun _ => inr []))
    (lit "hdr" ++ 46%N :: lit "payload" ++ 46%N :: lit "sig")
    (FhirTextual.Build_App VNone)
  = Run (Returned tt) (FhirTextual.Build_App VNone)
      [ WidgetWrite (lit "[red]Failed to decode token:[/red] "
                     ++ lit "Incorrect padding");
        FileAppend ((lit "[red]Failed to decode token:[/red] "
                     ++ lit "Incorrect padding") ++ [10%N]) ].
Proof.
  apply (@report_payload_decodes_the_middle_segment
           (FhirTextual.World (fun _ _ _ => ([], [])) true []
              (fun _ _ _ _ _ => inr []) (fun _ => inl (lit "Incorrect padding"))
              (fun _ => inr []))
           (FhirTextual.Build_App VNone) (lit "hdr") (lit "payload") (lit "sig"));
    vm_compute; intro H; repeat (destruct H as [H | H]; [discriminate H |]); exact H.
Defined.





Lemma login_success_shape (cfg : SmartAuth.config) (w : SmartAuth.world)
    (s : SmartAuth.Session) (v : value) :
  out (SmartAuth.login cfg w s) = Returned v ->
  SmartAuth.token (final (SmartAuth.login cfg w s)) = v
  /\ SmartAuth.patient_ref (final (SmartAuth.login cfg w s)) = SmartAuth.patient_ref s.
Proof.
  rewrite login_run. cbv zeta.
  destruct (SmartAuth.bind_succeeds w); [| discriminate].
  destruct (first_code (SmartAuth.incoming w)); [| discriminate].
  destruct (SmartAuth.fetch_token _ _ _ _ _ _) as [e | d]; [discriminate |].
  destruct (dict_lookup d (lit "access_token")) as [v' |]; [| discriminate].
  destruct (SmartAuth._mask v' 8); [discriminate |].
  cbn [out final]. intros [= <-]. split; reflexivity.
Qed.

(** ** The patient portal *)

(** The log-in of the portal never gets to the patient's data.  The
    extractor finds no patient context, so the rest of the method - the
    update of the widgets and the fetch of demographics and observations -
    is never run: the handler behaves the same whatever that rest would
    do.  It does not raise either (a failed login is logged), and the
    patient id stays what it was. *)
Theorem portal_login_never_shows_a_patient (cfg : SmartAuth.config)
    (w : SmartAuth.world) (show show' : M Portal.App unit) (app : Portal.App) :
  Portal._handle_login cfg w show app = Portal._handle_login cfg w show' app
  /\ (out (Portal._handle_login cfg w show app) = Returned tt
      \/ out (Portal._handle_login cfg w show app) = Blocked)
  /\ Portal.patient_id (final (Portal._handle_login cfg w show app))
     = Portal.patient_id app.
Proof.
  unfold Portal._handle_login.
  destruct (Portal.logged_in app); [repeat split; left; reflexivity |].
  destruct (SmartAuth.login cfg w SmartAuth.__init__) as [[v | e |] s1 t1].
  - unfold SmartAuth._extract_patient, SmartAuth._extract_patient_with, bind, get.
    destruct (truthy (SmartAuth.token s1)); cbn; repeat split; left; reflexivity.
  - repeat split. left. reflexivity.
  - repeat split. right. reflexivity.
Qed.

(** After a login that succeeds the portal holds the session with its
    token and no patient reference, and tells the log that there is no
    patient context. *)
Theorem portal_login_finds_no_patient_context (cfg : SmartAuth.config)
    (w : SmartAuth.world) (show : M Portal.App unit) (app : Portal.App) (v : value) :
  Portal.logged_in app = false ->
  out (SmartAuth.login cfg w SmartAuth.__init__) = Returned v ->
  out (Portal._handle_login cfg w show app) = Returned tt
  /\ Portal.auth (final (Portal._handle_login cfg w show app))
     = Some (SmartAuth.Build_Session v
               (SmartAuth.id_token (final (SmartAuth.login cfg w SmartAuth.__init__)))
               VNone)
  /\ In (INFO, lit "No patient context in token/userinfo.", [])
        (log_records (trace (Portal._handle_login cfg w show app))).
Proof.
  intros Happ Hout.
  destruct (login_success_shape cfg w SmartAuth.__init__ Hout) as [Htok _].
  unfold Portal._handle_login. rewrite Happ.
  destruct (SmartAuth.login cfg w SmartAuth.__init__) as [o s1 t1].
  cbn [out final] in *. subst o.
  unfold SmartAuth._extract_patient, SmartAuth._extract_patient_with, bind, get.
  destruct (truthy (SmartAuth.token s1)); cbn; rewrite Htok; repeat split;
    rewrite !log_records_app; find_event.
Qed.

Lemma portal_login_finds_no_patient_context_witness :
  out (Portal._handle_login Scenario.cfg
         (Scenario.world (lit "XYZ")
            [Request (lit "GET") (lit "/cb?code=ABC123&state=XYZ")]
            (inr Scenario.token_response))
         (raise TypeError) Portal.__init__)
  = Returned tt.
Proof.
  refine (proj1 (@portal_login_finds_no_patient_context Scenario.cfg
                   (Scenario.world (lit "XYZ")
                      [Request (lit "GET") (lit "/cb?code=ABC123&state=XYZ")]
                      (inr Scenario.token_response))
                   (raise TypeError) Portal.__init__
                   (VStr Scenario.access_token) _ _));
    vm_compute; reflexivity.
Defined.

(** ** The buttons of the second demo *)

Section Buttons.

Variable cfg : SmartAuth.config.
Variable status_update : str -> M Demo2.App unit.

(** The status widget takes every update and touches nothing else. *)
Hypothesis status_works :
  forall markup app, exists t, status_update markup app = Run (Returned tt) app t.

(** The log-in button never raises: a login that fails is logged at
    level ERROR with its exception.  And it does not keep an earlier
    session through a failure: the helper is made anew before the
    attempt, so after a failed log-in the application holds the helper
    of the failed attempt, whatever it held before. *)
Theorem login_button_catches_and_replaces (w : SmartAuth.world) (app : Demo2.App) :
  (out (Demo2.press_login cfg status_update w app) = Returned tt
   \/ out (Demo2.press_login cfg status_update w app) = Blocked)
  /\ Demo2.auth (final (Demo2.press_login cfg status_update w app))
     = Some (final (SmartAuth.login cfg w SmartAuth.__init__))
  /\ forall e,
       out (SmartAuth.login cfg w SmartAuth.__init__) = Raised e ->
       out (Demo2.press_login cfg status_update w app) = Returned tt
       /\ In (ERROR, lit "Login failed: %s", [Exn e])
             (log_records (trace (Demo2.press_login cfg status_update w app))).
Proof.
  unfold Demo2.press_login, Demo2.fresh_login, Demo2._update_status.
  cbv beta iota delta [try_except bind info emit].
  destruct (SmartAuth.login cfg w SmartAuth.__init__) as [[v | e |] s1 t1].
  - destruct (status_works (lit "[" ++ lit "green" ++ lit "]" ++ lit "Logged In"
                            ++ lit "[/" ++ lit "green" ++ lit "]")
                (Demo2.Build_App (Some s1))) as [t Ht].
    rewrite Ht. cbn [out final Demo2.auth].
    split; [left; reflexivity |]. split; [reflexivity |].
    intros e He. discriminate He.
  - destruct (status_works (lit "[" ++ lit "red" ++ lit "]" ++ lit "Login Failed"
                            ++ lit "[/" ++ lit "red" ++ lit "]")
                (Demo2.Build_App (Some s1))) as [t Ht].
    rewrite Ht. cbn [out final trace Demo2.auth].
    split; [left; reflexivity |]. split; [reflexivity |].
    intros e' [= <-]. split; [reflexivity |].
    rewrite !log_records_app. find_event.
  - cbn [out final Demo2.auth].
    split; [right; reflexivity |]. split; [reflexivity |].
    intros e He. discriminate He.
Qed.

(** After the log-out button the application holds no helper, and the
    check made before any read of patient data refuses: it returns
    [False] and logs, at level ERROR, that a login is needed. *)
Theorem logout_button_then_auth_is_required (app : Demo2.App) :
  out (Demo2.press_logout cfg status_update app) = Returned tt
  /\ Demo2.auth (final (Demo2.press_logout cfg status_update app)) = None
  /\ Demo2._require_auth (final (Demo2.press_logout cfg status_update app))
     = Run (Returned false) (Demo2.Build_App None)
         [Log ERROR (lit "Please login first.") []].
Proof.
  unfold Demo2.press_logout, Demo2.helper_logout, Demo2._update_status.
  cbv beta iota delta [try_except bind info emit get put ret].
  destruct app as [[s |]]; cbn [Demo2.auth].
  - destruct (SmartAuth.logout cfg s) as [[[] | e |] s1 t1] eqn:Hl.
    + destruct (status_works (lit "[" ++ lit "yellow" ++ lit "]" ++ lit "Logged Out"
                              ++ lit "[/" ++ lit "yellow" ++ lit "]")
                  (Demo2.Build_App None)) as [t Ht].
      rewrite Ht. repeat split.
    + destruct (status_works (lit "[" ++ lit "yellow" ++ lit "]" ++ lit "Logged Out"
                              ++ lit "[/" ++ lit "yellow" ++ lit "]")
                  (Demo2.Build_App None)) as [t Ht].
      rewrite Ht. repeat split.
    + discriminate Hl.
  - destruct (status_works (lit "[" ++ lit "yellow" ++ lit "]" ++ lit "Logged Out"
                            ++ lit "[/" ++ lit "yellow" ++ lit "]")
                (Demo2.Build_App None)) as [t Ht].
    rewrite Ht. repeat split.
Qed.

End Buttons.

Lemma status_shown_works (markup : str) (app : Demo2.App) :
  exists t, Demo2.status_shown markup app = Run (Returned tt) app t.
Proof. eexists. reflexivity. Qed.

Lemma login_button_catches_and_replaces_witness :
  Demo2.auth
    (final (Demo2.press_login Scenario.cfg Demo2.status_shown
              (Scenario.world (lit "XYZ")
                 [Request (lit "GET") (lit "/cb?code=ABC123&state=XYZ")]
                 (inl (LibraryError (lit "invalid_grant"))))
              (Demo2.Build_App (Some Scenario.earlier_session))))
  = Some (final (SmartAuth.login Scenario.cfg
                   (Scenario.world (lit "XYZ")
                      [Request (lit "GET") (lit "/cb?code=ABC123&state=XYZ")]
                      (inl (LibraryError (lit "invalid_grant"))))
                   SmartAuth.__init__)).
Proof.
  exact (proj1 (proj2 (@login_button_catches_and_replaces Scenario.cfg
                         Demo2.status_shown status_shown_works
                         (Scenario.world (lit "XYZ")
                            [Request (lit "GET") (lit "/cb?code=ABC123&state=XYZ")]
                            (inl (LibraryError (lit "invalid_grant"))))
                         (Demo2.Build_App (Some Scenario.earlier_session))))).
Defined.

Lemma logout_button_then_auth_is_required_witness :
  Demo2.auth
    (final (Demo2.press_logout Scenario.cfg Demo2.status_shown
              (Demo2.Build_App (Some Scenario.earlier_session))))
  = None.
Proof.
  exact (proj1 (proj2 (@logout_button_then_auth_is_required Scenario.cfg
                         Demo2.status_shown status_shown_works
                         (Demo2.Build_App (Some Scenario.earlier_session))))).
Defined.

